(** * Threader AI: the Reddit collector, normaliser and smart scraper

    A shallow embedding of [src/scrapers/redditScraper.js] together with the
    properties its design document states about it.

    Conventions of the embedding.
    - JavaScript numbers that hold counters and epoch seconds are integers
      ([Z]); [upvote_ratio] is a fraction ([Q]).  Item counts and retry
      counts ([maxItems], [retries]) are natural numbers.
    - A property that may be missing from an upstream JSON object is an
      [option]; [None] stands for both [undefined] and [null].
    - Strings are byte strings; [toLowerCase] folds the ASCII letters.
    - An ISO-8601 string produced by [Date.prototype.toISOString] is
      represented by the time value (milliseconds since the epoch) it
      renders, since the rendering is injective on valid dates.
    - Asynchronous code is sequential here: every [await] is a bind of the
      monad [M], which threads the history of observable events and carries
      thrown errors.  The network and the clock are oracles of the history.
    - Console output and request headers are not observable events.  The
      command-line [main] only calls the functions embedded here, prints
      and exits, and is left out. *)

From Stdlib Require Import QArith Qminmax Ascii String.
From stdpp Require Import base option list strings pretty gmap fin_maps.

Local Open Scope string_scope.
Local Open Scope list_scope.
Local Open Scope Z_scope.

(** ** JavaScript errors and results *)

Inductive js_error :=
| Error (message : string)
| TypeError (message : string)
| RangeError (message : string)
| SyntaxError (message : string).

Definition message (e : js_error) : string :=
  match e with
  | Error m | TypeError m | RangeError m | SyntaxError m => m
  end.

Inductive result (A : Type) :=
| Ok (a : A)
| Throw (e : js_error).
Arguments Ok {A} a.
Arguments Throw {A} e.

Definition is_ok {A} (r : result A) : bool :=
  match r with Ok _ => true | Throw _ => false end.

(** ** Upstream JSON shapes *)

(** The [data] object of a Reddit "thing" (a post [t3] or a comment [t1]). *)
Record RawItem := {
  item_id : option string;
  item_url : option string;
  item_permalink : option string;
  item_title : option string;
  item_selftext : option string;
  item_body : option string;
  item_author : option string;
  item_subreddit : option string;
  item_score : option Z;
  item_ups : option Z;
  item_num_comments : option Z;
  item_upvote_ratio : option Q;
  item_link_flair_text : option string;
  item_created_utc : option Z
}.

Record Child := { kind : string; cdata : RawItem }.

Record ListingData := {
  children : option (list Child);
  after : option string
}.

Record Listing := { ldata : option ListingData }.

(** What [response.json()] resolves to: a listing object (search and
    subreddit endpoints) or an array of listings (a comment thread). *)
Inductive json_body :=
| BObject (l : Listing)
| BArray (ls : list Listing).

Record response := {
  status : Z;
  statusText : string;
  json : result json_body
}.

(** [response.ok] *)
Definition ok (r : response) : bool :=
  (200 <=? status r) && (status r <=? 299).

(** Outcome of one [fetch]: the promise rejects or resolves to a response. *)
Inductive outcome :=
| Rejected (e : js_error)
| Resolved (r : response).

(** ** Observable events, the world and the monad *)

Inductive event :=
| EJitter                 (* sleep(Math.random() * 1000 + 500) *)
| ESleep (ms : Z)         (* sleep(ms), setTimeout(resolve, ms) *)
| EFetch (url : string).  (* fetch(url, { headers }) *)

Definition history := list event.

Record World := {
  net : history -> string -> outcome;   (* answer to a request, given the past *)
  clock : history -> Z                  (* Date.now(), milliseconds *)
}.

Definition M (A : Type) : Type := history -> result A * history.

Definition ret {A} (a : A) : M A := fun h => (Ok a, h).

Definition bind {A B} (c : M A) (k : A -> M B) : M B :=
  fun h => match c h with
           | (Ok a, h') => k a h'
           | (Throw e, h') => (Throw e, h')
           end.

Definition throw {A} (e : js_error) : M A := fun h => (Throw e, h).

(** [try { c } catch (error) { handler error }] *)
Definition try_catch {A} (c : M A) (handler : js_error -> M A) : M A :=
  fun h => match c h with
           | (Ok a, h') => (Ok a, h')
           | (Throw e, h') => handler e h'
           end.

(** Awaiting a promise that is already settled. *)
Definition await {A} (p : result A) : M A := fun h => (p, h).

Global Instance M_ret : MRet M := @ret.
Global Instance M_bind : MBind M := fun A B k c => bind c k.

Definition emit (e : event) : M unit := fun h => (Ok tt, h ++ [e]).

Definition sleep (ms : Z) : M unit := emit (ESleep ms).
Definition sleep_jitter : M unit := emit EJitter.

Definition count_fetches (h : history) : nat :=
  length (List.filter (fun e => match e with EFetch _ => true | _ => false end) h).

Definition count_sleeps (ms : Z) (h : history) : nat :=
  length (List.filter (fun e => match e with ESleep n => n =? ms | _ => false end) h).

(** ** JavaScript helpers *)

(** Truthiness of an optional string and of an optional number. *)
Definition truthy_str (o : option string) : bool :=
  match o with
  | Some s => negb (String.eqb s "")
  | None => false
  end.

Definition truthy_num (o : option Z) : bool :=
  match o with
  | Some n => negb (n =? 0)
  | None => false
  end.

Definition truthy_Q (o : option Q) : bool :=
  match o with
  | Some q => negb (Qeq_bool q 0)
  | None => false
  end.

(** [a || b] on optional strings / numbers (the result is [a] when truthy). *)
Definition or_str (a b : option string) : option string :=
  if truthy_str a then a else b.

Definition or_num (a b : option Z) : option Z :=
  if truthy_num a then a else b.

(** A value interpolated in a template literal. *)
Definition template (o : option string) : string :=
  match o with
  | Some s => s
  | None => "undefined"
  end.

Definition toLowerCase_ascii (c : ascii) : ascii :=
  let n := nat_of_ascii c in
  if (65 <=? n)%nat && (n <=? 90)%nat then ascii_of_nat (n + 32) else c.

Fixpoint toLowerCase (s : string) : string :=
  match s with
  | EmptyString => EmptyString
  | String c s' => String (toLowerCase_ascii c) (toLowerCase s')
  end.

(** [s.includes(t)] *)
Fixpoint includes (s t : string) : bool :=
  String.prefix t s ||
  match s with
  | EmptyString => false
  | String _ s' => includes s' t
  end.

(** [Array.prototype.slice(0, n)] for a count [n]. *)
Definition slice0 {A} (n : nat) (l : list A) : list A := take n l.

(** [Math.ceil(n / 25)] on a count. *)
Definition ceil_div25 (n : nat) : nat := (n + 24) `div` 25.

(** ** Dates *)

(** Largest time value of a valid [Date] (ECMAScript TimeClip). *)
Definition MAX_TIME_VALUE : Z := 8640000000000000.

(** [new Date(ms).toISOString()]: a [RangeError] on an invalid date. *)
Definition toISOString (ms : Z) : result Z :=
  if Z.abs ms <=? MAX_TIME_VALUE then Ok ms
  else Throw (RangeError "Invalid time value").

(** ** Constants *)

Definition RATE_LIMIT_DELAY : Z := 2000.
Definition DEFAULT_RETRIES : nat := 3.

(** ** Records produced by the scraper *)

Record Analysis := {
  category : option string;
  userSegment : option string;
  impactType : option string;
  urgency : option string;
  sentiment : option string
}.

Record Comment := {
  c_id : option string;
  c_body : option string;
  c_author : option string;
  c_upvotes : Z;
  c_createdAt : option Z
}.

Record FeedbackRecord := {
  source : string;
  sourceId : option string;
  sourceUrl : string;
  title : option string;
  body : string;
  author : string;
  subreddit : option string;
  upvotes : Z;
  commentCount : Z;
  upvoteRatio : option Q;
  flair : option string;
  createdAt : option Z;
  scrapedAt : Z;
  companyName : string;
  analysis : Analysis;
  comments : list Comment
}.

(** [a || d] with a string / number default [d]. *)
Definition str_or (a : option string) (d : string) : string :=
  match a with
  | Some s => if String.eqb s "" then d else s
  | None => d
  end.

Definition num_or (a : option Z) (d : Z) : Z :=
  match a with
  | Some n => if n =? 0 then d else n
  | None => d
  end.

(** [a || null] *)
Definition str_or_null (a : option string) : option string :=
  if truthy_str a then a else None.

Definition Q_or_null (a : option Q) : option Q :=
  if truthy_Q a then a else None.

(** [t ? new Date(t * 1000).toISOString() : null] *)
Definition iso_of_seconds (t : option Z) : result (option Z) :=
  if truthy_num t then
    match toISOString (default 0 t * 1000) with
    | Ok iso => Ok (Some iso)
    | Throw e => Throw e
    end
  else Ok None.

(** ** normalizeRedditItem

    [now] is the reading of the system clock taken by [new Date()] for the
    [scrapedAt] field. *)
Definition normalizeRedditItem (now : Z) (item : RawItem) (companyName : string)
  : result FeedbackRecord :=
  match iso_of_seconds (item_created_utc item) with
  | Throw e => Throw e
  | Ok created =>
      Ok {|
        source := "reddit";
        sourceId := item_id item;
        sourceUrl := str_or (item_url item)
                       ("https://reddit.com" +:+ template (item_permalink item));
        title := str_or_null (item_title item);
        body := str_or (or_str (item_selftext item) (item_body item)) "";
        author := str_or (item_author item) "[deleted]";
        subreddit := item_subreddit item;
        upvotes := num_or (or_num (item_score item) (item_ups item)) 0;
        commentCount := num_or (item_num_comments item) 0;
        upvoteRatio := Q_or_null (item_upvote_ratio item);
        flair := str_or_null (item_link_flair_text item);
        createdAt := created;
        scrapedAt := now;
        companyName := companyName;
        analysis := {| category := None; userSegment := None;
                       impactType := None; urgency := None;
                       sentiment := None |};
        comments := []
      |}
  end.

(** ** isRelevantPost *)

Definition post_content (post : FeedbackRecord) : string :=
  toLowerCase (str_or (title post) "" +:+ " " +:+ str_or (Some (body post)) "").

Definition isRelevantPost (post : FeedbackRecord) (searchTerms : list string) : bool :=
  existsb (fun term => includes (post_content post) (toLowerCase term)) searchTerms.

(** ** URLs

    [URLSearchParams.prototype.toString] is rendered without percent
    escapes. *)
Definition URLSearchParams_toString (params : list (string * string)) : string :=
  String.concat "&" (map (fun kv => fst kv +:+ "=" +:+ snd kv) params).

(** [if (after) params.set('after', after)] *)
Definition set_after (params : list (string * string)) (after : option string)
  : list (string * string) :=
  if truthy_str after then params ++ [("after", template after)] else params.

(** [post.created_utc >= oneDayAgoTimestamp] *)
Definition in_window (oneDayAgoTimestamp : Z) (post : RawItem) : bool :=
  match item_created_utc post with
  | Some t => oneDayAgoTimestamp <=? t
  | None => false
  end.

(** The locals of a pagination loop. *)
Record pager (A : Type) := {
  allPosts : list A;
  cursor : option string;     (* [after] *)
  fetchCount : nat
}.
Arguments allPosts {A} p.
Arguments cursor {A} p.
Arguments fetchCount {A} p.

(** Which exit of a pagination loop was taken. *)
Inductive loop_exit :=
| WhileFetchCount    (* fetchCount < maxFetches is false *)
| WhileMaxItems      (* allPosts.length < maxItems is false *)
| BreakNoChildren    (* no data, no children or an empty page *)
| BreakNoCursor      (* if (!after) break *)
| BreakCaught.       (* catch (error) { ...; break } *)

(** [data.data], for the value [fetchRedditJson] returned. *)
Definition listing_data (data : option json_body) : result (option ListingData) :=
  match data with
  | None => Throw (TypeError "Cannot read properties of undefined (reading 'data')")
  | Some (BObject l) => Ok (ldata l)
  | Some (BArray _) => Ok None
  end.

(** The children of a page when
    [!data.data || !data.data.children || data.data.children.length === 0]
    is false. *)
Definition page_children (page : option ListingData) : option (list Child) :=
  match page with
  | Some ld =>
      match children ld with
      | Some (c :: cs) => Some (c :: cs)
      | _ => None
      end
  | None => None
  end.

(** ** fetchRedditJson *)

(** Result of one pass through the body of the retry loop. *)
Inductive flow (A : Type) :=
| Continue
| Return (a : A).
Arguments Continue {A}.
Arguments Return {A} a.

(** [url.includes('.json') ? url : `${url}.json`] *)
Definition json_url (url : string) : string :=
  if includes url ".json" then url else url +:+ ".json".

Section Scraper.
Context (W : World).

(** [new Date().getTime()] *)
Definition Date_now : M Z := fun h => (Ok (clock W h), h).

(** [await fetch(jsonUrl, { headers })] *)
Definition fetch (jsonUrl : string) : M response :=
  fun h =>
    let h' := h ++ [EFetch jsonUrl] in
    match net W h jsonUrl with
    | Rejected e => (Throw e, h')
    | Resolved r => (Ok r, h')
    end.

(** The [try] block of one attempt.  [return response.json()] hands the
    promise back without awaiting it, so a rejected parse is not seen by the
    [catch] of this attempt. *)
Definition attempt_try (jsonUrl : string) : M (flow (result json_body)) :=
  sleep_jitter ;;
  response ← fetch jsonUrl ;
  if status response =? 429 then
    sleep 30000 ;; mret Continue
  else if status response =? 403 then
    sleep 10000 ;; mret Continue
  else if negb (ok response) then
    throw (Error ("Reddit API error: " +:+ pretty (status response)
                    +:+ " " +:+ statusText response))
  else
    mret (Return (json response)).

Definition attempt_catch (retries attempt : nat) (error : js_error)
  : M (flow (result json_body)) :=
  if (attempt =? retries)%nat then throw error
  else sleep 5000 ;; mret Continue.

(** [for (let attempt = ...; attempt <= retries; attempt++)], with [fuel]
    the number of attempts still allowed ([retries + 1 - attempt]).  Falling
    off the loop returns [undefined]. *)
Fixpoint attempts (fuel : nat) (jsonUrl : string) (retries attempt : nat)
  : M (option json_body) :=
  match fuel with
  | O => mret None
  | S fuel' =>
      r ← try_catch (attempt_try jsonUrl) (attempt_catch retries attempt) ;
      match r with
      | Return promise => b ← await promise ; mret (Some b)
      | Continue => attempts fuel' jsonUrl retries (S attempt)
      end
  end.

Definition fetchRedditJson (url : string) (retries : nat) : M (option json_body) :=
  let jsonUrl := json_url url in
  attempts retries jsonUrl retries 1.

(** ** Pagination *)

(** [Math.floor(oneDayAgo.getTime() / 1000)] after
    [oneDayAgo.setHours(oneDayAgo.getHours() - 24)]; the local time zone is
    taken to keep one offset over the day, so the shift is 24 hours. *)
Definition oneDayAgoTimestamp : M Z :=
  now ← Date_now ;
  mret ((now - 24 * 3600 * 1000) `div` 1000).

(** [normalizeRedditItem] as called from asynchronous code: it reads the
    clock and may throw. *)
Definition normalize (item : RawItem) (companyName : string) : M FeedbackRecord :=
  now ← Date_now ;
  await (normalizeRedditItem now item companyName).

Fixpoint mapM {A B} (f : A -> M B) (l : list A) : M (list B) :=
  match l with
  | [] => mret []
  | x :: l' => y ← f x ; ys ← mapM f l' ; mret (y :: ys)
  end.

Definition search_url (companyName : string) (subreddits : list string)
    (after : option string) : string :=
  let baseUrl :=
    if (0 <? length subreddits)%nat
    then "https://www.reddit.com/r/" +:+ String.concat "+" subreddits +:+ "/search.json"
    else "https://www.reddit.com/search.json" in
  let params :=
    set_after [("q", companyName); ("sort", "new"); ("t", "day"); ("limit", "25");
               ("restrict_sr", if (0 <? length subreddits)%nat then "1" else "0")]
              after in
  baseUrl +:+ "?" +:+ URLSearchParams_toString params.

(** One pass through the body of the [while] loop of [fetchRedditMentions].
    [None] as exit means that the loop goes round again. *)
Definition mentions_page (companyName : string) (subreddits : list string)
    (oneDayAgo : Z) (p : pager RawItem) : M (pager RawItem * option loop_exit) :=
  data ← fetchRedditJson (search_url companyName subreddits (cursor p)) DEFAULT_RETRIES ;
  page ← await (listing_data data) ;
  match page_children page with
  | None => mret (p, Some BreakNoChildren)
  | Some cs =>
      let p' := {| allPosts := allPosts p ++ List.filter (in_window oneDayAgo) (map cdata cs);
                   cursor := page ≫= after;
                   fetchCount := S (fetchCount p) |} in
      if negb (truthy_str (cursor p')) then mret (p', Some BreakNoCursor)
      else sleep RATE_LIMIT_DELAY ;; mret (p', None)
  end.

(** [while (fetchCount < maxFetches && allPosts.length < maxItems) { ... }],
    the loop header that [fetchRedditMentions] and [fetchSubredditPosts]
    share; [body] is one pass through the loop body and [fuel] the pages
    still allowed ([maxFetches - fetchCount]). *)
Fixpoint paginate {A} (body : pager A -> M (pager A * option loop_exit))
    (fuel maxItems : nat) (p : pager A) : M (pager A * loop_exit) :=
  match fuel with
  | O => mret (p, WhileFetchCount)
  | S fuel' =>
      if negb (length (allPosts p) <? maxItems)%nat then mret (p, WhileMaxItems)
      else
        '(p', e) ← body p ;
        match e with
        | Some e => mret (p', e)
        | None => paginate body fuel' maxItems p'
        end
  end.

Definition mentions_loop (fuel : nat) (companyName : string) (subreddits : list string)
    (maxItems : nat) (oneDayAgo : Z) (p : pager RawItem)
  : M (pager RawItem * loop_exit) :=
  paginate (mentions_page companyName subreddits oneDayAgo) fuel maxItems p.

Definition fetchRedditMentions (companyName : string) (maxItems : nat)
    (subreddits : list string) : M (list FeedbackRecord) :=
  oneDayAgo ← oneDayAgoTimestamp ;
  let maxFetches := ceil_div25 maxItems in
  try_catch
    ('(p, _) ← mentions_loop maxFetches companyName subreddits maxItems oneDayAgo
                 {| allPosts := []; cursor := None; fetchCount := 0 |} ;
     mapM (fun item => normalize item companyName) (slice0 maxItems (allPosts p)))
    (fun error => throw error).

Definition subreddit_url (subredditName sort time : string) (after : option string)
  : string :=
  let params := set_after [("sort", sort); ("t", time); ("limit", "25")] after in
  "https://www.reddit.com/r/" +:+ subredditName +:+ "/" +:+ sort +:+ ".json?"
    +:+ URLSearchParams_toString params.

(** The [for (const child of data.data.children)] loop of
    [fetchSubredditPosts].  [allPosts] is an array mutated in place: when a
    normalisation throws, the records pushed before it stay in the array, so
    the error is handed back next to the array as it then is. *)
Fixpoint push_recent (oneDayAgo : Z) (subredditName : string) (cs : list Child)
    (allPosts : list FeedbackRecord) : M (list FeedbackRecord * option js_error) :=
  match cs with
  | [] => mret (allPosts, None)
  | child :: rest =>
      let post := cdata child in
      if in_window oneDayAgo post then
        try_catch
          (r ← normalize post subredditName ;
           push_recent oneDayAgo subredditName rest (allPosts ++ [r]))
          (fun error => mret (allPosts, Some error))
      else push_recent oneDayAgo subredditName rest allPosts
  end.

(** One pass through the body of the [while] loop of [fetchSubredditPosts],
    [try] and [catch] included. *)
Definition subreddit_page (subredditName sort time : string) (oneDayAgo : Z)
    (p : pager FeedbackRecord) : M (pager FeedbackRecord * option loop_exit) :=
  try_catch
    (data ← fetchRedditJson (subreddit_url subredditName sort time (cursor p))
              DEFAULT_RETRIES ;
     page ← await (listing_data data) ;
     match page_children page with
     | None => mret (p, Some BreakNoChildren)
     | Some cs =>
         '(posts, thrown) ← push_recent oneDayAgo subredditName cs (allPosts p) ;
         match thrown with
         | Some _ =>
             mret ({| allPosts := posts; cursor := cursor p;
                      fetchCount := fetchCount p |}, Some BreakCaught)
         | None =>
             let p' := {| allPosts := posts; cursor := page ≫= after;
                          fetchCount := S (fetchCount p) |} in
             if negb (truthy_str (cursor p')) then mret (p', Some BreakNoCursor)
             else sleep RATE_LIMIT_DELAY ;; mret (p', None)
         end
     end)
    (fun error => mret (p, Some BreakCaught)).

Definition subreddit_loop (fuel : nat) (subredditName sort time : string)
    (maxItems : nat) (oneDayAgo : Z) (p : pager FeedbackRecord)
  : M (pager FeedbackRecord * loop_exit) :=
  paginate (subreddit_page subredditName sort time oneDayAgo) fuel maxItems p.

Definition fetchSubredditPosts (subredditName : string) (maxItems : nat)
    (sort time : string) : M (list FeedbackRecord) :=
  oneDayAgo ← oneDayAgoTimestamp ;
  let maxFetches := ceil_div25 maxItems in
  '(p, _) ← subreddit_loop maxFetches subredditName sort time maxItems oneDayAgo
              {| allPosts := []; cursor := None; fetchCount := 0 |} ;
  mret (slice0 maxItems (allPosts p)).

(** ** fetchPostComments *)

(** [data[1].data.children], or nothing when one of the three is missing. *)
Definition comments_listing (data : option json_body) : result (option (list Child)) :=
  match data with
  | None => Throw (TypeError "Cannot read properties of undefined (reading '1')")
  | Some (BObject _) => Ok None
  | Some (BArray ls) => Ok ((ls !! 1%nat ≫= ldata) ≫= children)
  end.

Definition is_comment (child : Child) : bool := String.eqb (kind child) "t1".

Definition comment_of (child : Child) : result Comment :=
  let d := cdata child in
  match iso_of_seconds (item_created_utc d) with
  | Throw e => Throw e
  | Ok created =>
      Ok {| c_id := item_id d; c_body := item_body d; c_author := item_author d;
            c_upvotes := num_or (item_score d) 0; c_createdAt := created |}
  end.

Fixpoint map_result {A B} (f : A -> result B) (l : list A) : result (list B) :=
  match l with
  | [] => Ok []
  | x :: l' =>
      match f x with
      | Throw e => Throw e
      | Ok y =>
          match map_result f l' with
          | Throw e => Throw e
          | Ok ys => Ok (y :: ys)
          end
      end
  end.

Definition fetchPostComments (permalink : string) : M (list Comment) :=
  try_catch
    (data ← fetchRedditJson ("https://www.reddit.com" +:+ permalink +:+ ".json")
              DEFAULT_RETRIES ;
     listing ← await (comments_listing data) ;
     match listing with
     | None => mret []
     | Some cs => await (map_result comment_of (slice0 10 (List.filter is_comment cs)))
     end)
    (fun error => mret []).

End Scraper.

(** ** smartScrape *)

Record Sub := { name : string; relevance : string }.

Record Discovery := {
  subreddits : list Sub;
  searchTerms : list string
}.

(** An entry of [subredditResults]. *)
Record SubredditResult := {
  total : nat;
  relevant : nat;
  res_relevance : option string;
  res_error : option string
}.

(** An element of [mentions]: a feedback record, with the two tags that the
    subreddit loop adds. *)
Record Mention := {
  m_record : FeedbackRecord;
  discoveredSubreddit : option bool;
  subredditRelevance : option string
}.

Record ScrapeResult := {
  discovery : Discovery;
  mentions : list Mention;
  subredditResults : gmap string SubredditResult
}.

Record Options := {
  maxItemsPerSubreddit : nat;
  useQuickDiscovery : bool;
  companyContext : string;
  filterSecondary : bool
}.

Definition default_options : Options :=
  {| maxItemsPerSubreddit := 100; useQuickDiscovery := false;
     companyContext := ""; filterSecondary := true |}.

Definition set_companyName (c : string) (r : FeedbackRecord) : FeedbackRecord :=
  {| source := source r; sourceId := sourceId r; sourceUrl := sourceUrl r;
     title := title r; body := body r; author := author r;
     subreddit := subreddit r; upvotes := upvotes r;
     commentCount := commentCount r; upvoteRatio := upvoteRatio r;
     flair := flair r; createdAt := createdAt r; scrapedAt := scrapedAt r;
     companyName := c; analysis := analysis r; comments := comments r |}.

(** [{ ...post, companyName, discoveredSubreddit: true, subredditRelevance }] *)
Definition tag (companyName : string) (sub : Sub) (post : FeedbackRecord) : Mention :=
  {| m_record := set_companyName companyName post;
     discoveredSubreddit := Some true;
     subredditRelevance := Some (relevance sub) |}.

Definition untagged (post : FeedbackRecord) : Mention :=
  {| m_record := post; discoveredSubreddit := None; subredditRelevance := None |}.

(** [filterSecondary && sub.relevance === 'secondary'] *)
Definition filters (opts : Options) (sub : Sub) : bool :=
  filterSecondary opts && String.eqb (relevance sub) "secondary".

Definition relevantPosts (opts : Options) (d : Discovery) (sub : Sub)
    (posts : list FeedbackRecord) : list FeedbackRecord :=
  if filters opts sub
  then List.filter (fun post => isRelevantPost post (searchTerms d)) posts
  else posts.

Section SmartScrape.
Context (W : World).

(** The two discovery strategies of [analysis/subredditDiscovery.js] and the
    [OPENAI_API_KEY] entry of [process.env] are supplied from outside. *)
Context (discoverSubreddits : string -> string -> M Discovery).
Context (quickDiscoverSubreddits : string -> M Discovery).
Context (OPENAI_API_KEY : option string).

(** Step 1, the [try]/[catch] around discovery. *)
Definition discover (companyName : string) (opts : Options) : M Discovery :=
  try_catch
    (if useQuickDiscovery opts || negb (truthy_str OPENAI_API_KEY)
     then quickDiscoverSubreddits companyName
     else discoverSubreddits companyName (companyContext opts))
    (fun error => quickDiscoverSubreddits companyName).

(** The body of [for (const sub of discovery.subreddits)], acting on
    [allMentions] and [subredditResults]. *)
Definition scrape_subreddit (companyName : string) (opts : Options) (d : Discovery)
    (sub : Sub) (acc : list Mention * gmap string SubredditResult)
  : M (list Mention * gmap string SubredditResult) :=
  acc' ← try_catch
    (posts ← fetchSubredditPosts W (name sub) (maxItemsPerSubreddit opts) "new" "day" ;
     let kept := relevantPosts opts d sub posts in
     mret (acc.1 ++ map (tag companyName sub) kept,
           <[name sub := {| total := length posts; relevant := length kept;
                            res_relevance := Some (relevance sub);
                            res_error := None |}]> acc.2))
    (fun error =>
       mret (acc.1,
             <[name sub := {| total := 0; relevant := 0; res_relevance := None;
                              res_error := Some (message error) |}]> acc.2)) ;
  sleep RATE_LIMIT_DELAY ;;
  mret acc'.

Fixpoint scrape_subreddits (companyName : string) (opts : Options) (d : Discovery)
    (subs : list Sub) (acc : list Mention * gmap string SubredditResult)
  : M (list Mention * gmap string SubredditResult) :=
  match subs with
  | [] => mret acc
  | sub :: rest =>
      acc' ← scrape_subreddit companyName opts d sub acc ;
      scrape_subreddits companyName opts d rest acc'
  end.

(** What [smartScrape] does once [discovery] is known: the Reddit-wide
    fallback, or steps 2 and 3. *)
Definition scrape_discovered (companyName : string) (opts : Options) (d : Discovery)
  : M ScrapeResult :=
  if (length (subreddits d) =? 0)%nat then
    found ← fetchRedditMentions W companyName 50 [] ;
    mret {| discovery := {| subreddits := []; searchTerms := [companyName] |};
            mentions := map untagged found;
            subredditResults := ∅ |}
  else
    acc ← scrape_subreddits companyName opts d (subreddits d) ([], ∅) ;
    mret {| discovery := d; mentions := acc.1; subredditResults := acc.2 |}.

Definition smartScrape (companyName : string) (opts : Options) : M ScrapeResult :=
  d ← discover companyName opts ;
  scrape_discovered companyName opts d.

End SmartScrape.

(** ** fetchAllRedditMentions *)

(** The string without its first [n] characters. *)
Fixpoint string_drop (n : nat) (s : string) : string :=
  match n, s with
  | O, _ => s
  | S n', String _ s' => string_drop n' s'
  | S _, EmptyString => EmptyString
  end.

(** [s.replace(pattern, replacement)] for a string pattern and a replacement
    without [$] patterns: the first occurrence is replaced. *)
Fixpoint replace (s pattern replacement : string) : string :=
  if String.prefix pattern s
  then replacement +:+ string_drop (String.length pattern) s
  else match s with
       | EmptyString => EmptyString
       | String c s' => String c (replace s' pattern replacement)
       end.

(** [posts[i].comments = ...] *)
Definition set_comments (cs : list Comment) (r : FeedbackRecord) : FeedbackRecord :=
  {| source := source r; sourceId := sourceId r; sourceUrl := sourceUrl r;
     title := title r; body := body r; author := author r;
     subreddit := subreddit r; upvotes := upvotes r;
     commentCount := commentCount r; upvoteRatio := upvoteRatio r;
     flair := flair r; createdAt := createdAt r; scrapedAt := scrapedAt r;
     companyName := companyName r; analysis := analysis r; comments := cs |}.

(** [post.sourceUrl && post.sourceUrl.includes('reddit.com')] *)
Definition on_reddit (post : FeedbackRecord) : bool :=
  negb (String.eqb (sourceUrl post) "") && includes (sourceUrl post) "reddit.com".

(** [post.sourceUrl.replace('https://reddit.com', '')
                   .replace('https://www.reddit.com', '')] *)
Definition permalink_of (post : FeedbackRecord) : string :=
  replace (replace (sourceUrl post) "https://reddit.com" "")
          "https://www.reddit.com" "".

(** What [fetchAllRedditMentions] returns. *)
Record AllMentions := {
  am_posts : list FeedbackRecord;
  am_comments : list Comment;
  am_total : nat
}.

Section AllMentions.
Context (W : World).

(** [for (let i = ...; i < Math.min(5, posts.length); i++)], with [fuel] the
    passes still to make; [posts] is the array that the loop updates in
    place. *)
Fixpoint attach_comments (fuel i : nat) (posts : list FeedbackRecord)
  : M (list FeedbackRecord) :=
  match fuel with
  | O => mret posts
  | S fuel' =>
      match posts !! i with
      | None => mret posts
      | Some post =>
          if on_reddit post then
            found ← fetchPostComments W (permalink_of post) ;
            sleep RATE_LIMIT_DELAY ;;
            attach_comments fuel' (S i) (<[i := set_comments found post]> posts)
          else attach_comments fuel' (S i) posts
      end
  end.

Definition fetchAllRedditMentions (companyName : string) (maxItems : nat)
    (includeComments : bool) : M AllMentions :=
  posts ← fetchRedditMentions W companyName maxItems [] ;
  posts' ← (if includeComments && (0 <? length posts)%nat
            then attach_comments (Nat.min 5 (length posts)) 0 posts
            else mret posts) ;
  mret {| am_posts := posts'; am_comments := []; am_total := length posts' |}.

End AllMentions.

(** ** The impact score *)

Module Impact.

Record Weighted := { value : Q; weight : Q }.

(** [ImpactBreakdown] of the dashboard types. *)
Record ImpactBreakdown := {
  reach : Weighted;
  sentiment : Weighted;
  velocity : Weighted
}.

(** Modelled from the spec: the Synthesizer that computes the score is not
    among the sources, which hold the [ImpactBreakdown] type and the
    documented formula only.  The weights are the fixed 0.4 / 0.3 / 0.3 and
    the weighted sum is clamped to [0, 10]. *)
Definition breakdown (r s v : Q) : ImpactBreakdown :=
  {| reach := {| value := r; weight := 0.4 |};
     sentiment := {| value := s; weight := 0.3 |};
     velocity := {| value := v; weight := 0.3 |} |}.

Definition weighted_sum (b : ImpactBreakdown) : Q :=
  (value (reach b) * weight (reach b)
   + value (sentiment b) * weight (sentiment b)
   + value (velocity b) * weight (velocity b))%Q.

Definition clamp (lo hi x : Q) : Q :=
  if Qlt_le_dec x lo then lo
  else if Qlt_le_dec hi x then hi
  else x.

Definition impactScore (r s v : Q) : Q :=
  clamp 0 10 (weighted_sum (breakdown r s v)).

End Impact.

(** ** Scripted worlds, used to run the scraper on concrete inputs *)

(** The n-th request of a run receives the n-th outcome of the script. *)
Definition scripted (script : list outcome) (rest : outcome)
  : history -> string -> outcome :=
  fun h _ => nth (count_fetches h) script rest.

Definition http (code : Z) (b : result json_body) : outcome :=
  Resolved {| status := code; statusText := ""; json := b |}.

Definition no_json : result json_body := Throw (SyntaxError "Unexpected end of JSON input").

Definition post_at (t : Z) (text : string) : RawItem :=
  {| item_id := Some "p"; item_url := None; item_permalink := Some "/r/a/p";
     item_title := Some text; item_selftext := None; item_body := None;
     item_author := Some "u"; item_subreddit := Some "a";
     item_score := Some 3; item_ups := None; item_num_comments := Some 1;
     item_upvote_ratio := None; item_link_flair_text := None;
     item_created_utc := Some t |}.

Definition page_of (k : string) (items : list RawItem) (next : option string) : Listing :=
  {| ldata := Some {| children := Some (map (fun i => {| kind := k; cdata := i |}) items);
                      after := next |} |}.

Definition page (items : list RawItem) (next : option string) : result json_body :=
  Ok (BObject (page_of "t3" items next)).

(** A clock stopped at 2023-11-14T22:13:20Z. *)
Definition NOW : Z := 1700000000000.

Definition world_of (script : list outcome) : World :=
  {| net := scripted script (Rejected (TypeError "fetch failed"));
     clock := fun _ => NOW |}.

(** * Vocabulary of the properties *)

(** ** Pagination *)

(** The locals of a pagination loop as it starts. *)
Definition fresh {A} : pager A := {| allPosts := []; cursor := None; fetchCount := 0 |}.

(** The value that [oneDayAgoTimestamp] takes in a call made at history [h]. *)
Definition window_start (W : World) (h : history) : Z :=
  (clock W h - 24 * 3600 * 1000) `div` 1000.


(** A record that [fetchSubredditPosts] pushes: the normalisation of a post
    that passed the time filter. *)
Definition pushed_from (oneDayAgo : Z) (r : FeedbackRecord) : Prop :=
  exists post now c,
    in_window oneDayAgo post = true /\ normalizeRedditItem now post c = Ok r.

(** The condition that an exit of a pagination loop witnesses in the final
    locals; [fetched] is the number of pages allowed at the start. *)
Definition exit_condition {A} (e : loop_exit) (fetched maxItems : nat) (p : pager A)
  : Prop :=
  match e with
  | WhileFetchCount => fetchCount p = fetched
  | WhileMaxItems => (maxItems <= length (allPosts p))%nat
  | BreakNoCursor => truthy_str (cursor p) = false
  | BreakNoChildren | BreakCaught => True
  end.

(** What one pass through a loop body may do to the locals. *)
Definition page_step {A} (Q : A -> Prop) (p p' : pager A) (e : option loop_exit)
  : Prop :=
  (exists new, allPosts p' = allPosts p ++ new /\ Forall Q new)
  /\ match e with
     | None => fetchCount p' = S (fetchCount p) /\ truthy_str (cursor p') = true
     | Some BreakNoCursor =>
         fetchCount p' = S (fetchCount p) /\ truthy_str (cursor p') = false
     | Some BreakNoChildren | Some BreakCaught => fetchCount p' = fetchCount p
     | Some WhileFetchCount | Some WhileMaxItems => False
     end.




(** ** Normalisation and comments *)

(** A timestamp that [iso_of_seconds] can render: missing, zero, or within
    the range of [Date]. *)
Definition valid_date (t : option Z) : Prop :=
  truthy_num t = false \/ Z.abs (default 0 t * 1000) <= MAX_TIME_VALUE.

(** The URL that [fetchPostComments] requests. *)
Definition comments_url (permalink : string) : string :=
  "https://www.reddit.com" +:+ permalink +:+ ".json".

(** ** Relevance and the subreddit loop *)

(** A post mentions a term when the lower-cased term is a substring of the
    lower-cased text "title body". *)
Definition mentions_term (post : FeedbackRecord) (searchTerms : list string) : Prop :=
  exists term pre suf,
    In term searchTerms
    /\ post_content post = pre +:+ toLowerCase term +:+ suf.

(** The entry written for a subreddit whose scrape returned [posts]. *)
Definition entry_of (opts : Options) (d : Discovery) (sub : Sub)
    (posts : list FeedbackRecord) : SubredditResult :=
  {| total := length posts;
     relevant := length (relevantPosts opts d sub posts);
     res_relevance := Some (relevance sub);
     res_error := None |}.

(** The scrapes that the subreddit loop performs from history [h]: one per
    discovered subreddit, in order, each starting where the previous one and
    the delay after it ended. *)
Inductive scraped (W : World) (opts : Options)
  : list Sub -> history -> list (Sub * list FeedbackRecord) -> history -> Prop :=
| scraped_nil h : scraped W opts [] h [] h
| scraped_cons sub rest h posts h1 more h2 :
    fetchSubredditPosts W (name sub) (maxItemsPerSubreddit opts) "new" "day" h
      = (Ok posts, h1) ->
    scraped W opts rest (h1 ++ [ESleep RATE_LIMIT_DELAY]) more h2 ->
    scraped W opts (sub :: rest) h ((sub, posts) :: more) h2.

(** The mentions that a scrape contributes, and the entry it leaves. *)
Definition kept_tagged (companyName : string) (opts : Options) (d : Discovery)
    (scrape : Sub * list FeedbackRecord) : list Mention :=
  map (tag companyName scrape.1) (relevantPosts opts d scrape.1 scrape.2).

Definition record_scrape (opts : Options) (d : Discovery)
    (results : gmap string SubredditResult) (scrape : Sub * list FeedbackRecord)
  : gmap string SubredditResult :=
  <[name scrape.1 := entry_of opts d scrape.1 scrape.2]> results.



(** The reading of the specification that [smartScrape] does not meet: every
    element of [mentions] is a post counted as relevant in the entry of a
    subreddit scraped without error. *)
Definition mentions_are_counted_posts : Prop :=
  forall W discoverSubreddits quickDiscoverSubreddits OPENAI_API_KEY
         companyName opts h r h',
    smartScrape W discoverSubreddits quickDiscoverSubreddits OPENAI_API_KEY
      companyName opts h = (Ok r, h') ->
    forall m, In m (mentions r) ->
      exists nm e, subredditResults r !! nm = Some e
                   /\ res_error e = None /\ (0 < relevant e)%nat.

(** ** Traces of the retry loop *)

(** Milliseconds of fixed sleeps in a stretch of history. *)
Definition total_sleep (h : history) : Z :=
  foldr (fun e acc => match e with ESleep ms => ms + acc | _ => acc end) 0 h.

Definition count_jitters (h : history) : nat :=
  length (List.filter (fun e => match e with EJitter => true | _ => false end) h).

(** The URLs requested in a stretch of history, in order. *)
Definition requested_urls (h : history) : list string :=
  omap (fun e => match e with EFetch u => Some u | _ => None end) h.

(** The cool-down that an answer with status [code] triggers. *)
Definition cool_down (code : Z) : Z := if code =? 429 then 30000 else 10000.

(** Every request is answered with status 429 or 403. *)
Definition always_told_to_wait (W : World) : Prop :=
  forall h u, exists r, net W h u = Resolved r /\ (status r = 429 \/ status r = 403).

(** Every request is rejected, or answered with a status that is neither
    a success nor 429 nor 403. *)
Definition always_failing (W : World) : Prop :=
  forall h u,
    (exists e, net W h u = Rejected e)
    \/ (exists r, net W h u = Resolved r
                  /\ status r <> 429 /\ status r <> 403 /\ ok r = false).

(** Answers with the statuses [codes], in order, then a page with body [b]. *)
Definition answers (codes : list Z) (b : json_body) : list outcome :=
  map (fun code => http code no_json) codes ++ [http 200 (Ok b)].

(** The cool-downs that the statuses [codes] add up to. *)
Definition cool_downs (codes : list Z) : Z :=
  foldr (fun code acc => cool_down code + acc) 0 codes.

(** A record that [fetchSubredditPosts] pushes for the subreddit [c]. *)
Definition pushed_as (oneDayAgo : Z) (c : string) (r : FeedbackRecord) : Prop :=
  exists post now,
    in_window oneDayAgo post = true /\ normalizeRedditItem now post c = Ok r.

(** What holds of every record that the normaliser builds for [c]: where it
    comes from, that nothing is analysed or attached yet, and which fields
    are never the empty string. *)
Definition collected_for (c : string) (r : FeedbackRecord) : Prop :=
  source r = "reddit" /\ companyName r = c /\ comments r = []
  /\ analysis r = {| category := None; userSegment := None; impactType := None;
                     urgency := None; sentiment := None |}
  /\ author r <> "" /\ sourceUrl r <> ""
  /\ title r <> Some "" /\ flair r <> Some "".

(** ** One page *)




(** ** Mentions *)

(** A mention that the subreddit loop tagged for the company [c]: it names
    the relevance of a discovered subreddit, and when that subreddit is
    filtered its text mentions a search term. *)
Definition tagged_mention (c : string) (opts : Options) (d : Discovery) (m : Mention)
  : Prop :=
  exists sub,
    In sub (subreddits d)
    /\ discoveredSubreddit m = Some true
    /\ subredditRelevance m = Some (relevance sub)
    /\ companyName (m_record m) = c
    /\ source (m_record m) = "reddit"
    /\ (filters opts sub = true -> mentions_term (m_record m) (searchTerms d)).

(** A mention of the Reddit-wide fallback: a collected record, without the
    two tags. *)
Definition untagged_mention (c : string) (m : Mention) : Prop :=
  discoveredSubreddit m = None /\ subredditRelevance m = None
  /\ collected_for c (m_record m).

(** ** Posts with their comments *)

(** What [fetchAllRedditMentions] does to the post at index [j]: with
    comments asked for, one of the first five posts whose URL is on Reddit
    gets the comments of a call of [fetchPostComments] for its permalink;
    every other post is left as it is. *)
Definition comments_attached (W : World) (includeComments : bool) (j : nat)
    (post : FeedbackRecord) (post' : option FeedbackRecord) : Prop :=
  if includeComments && (j <? 5)%nat && on_reddit post
  then exists cs hj hj',
         fetchPostComments W (permalink_of post) hj = (Ok cs, hj')
         /\ post' = Some (set_comments cs post) /\ (length cs <= 10)%nat
  else post' = Some post.

(** * Worlds for concrete runs *)

(** Two pages, the first of them holding a post older than the window. *)
Definition two_pages : World :=
  world_of [http 200 (page [post_at 1699999000 "Notion sync is slow";
                            post_at 1600000000 "old news"] (Some "t3_b"));
            http 200 (page [post_at 1699990000 "Love the new editor"] None)].

(** Two answers with status 429, then a page. *)
Definition rate_limited_twice : World :=
  world_of [http 429 no_json; http 429 no_json;
            http 200 (page [post_at 1699999000 "Notion sync is slow"] None)].

(** A source that answers every request with status 429. *)
Definition always_rate_limited : World :=
  {| net := fun _ _ => http 429 no_json; clock := fun _ => NOW |}.



(** One page of ten recent posts, three of which mention Notion. *)
Definition ten_posts : World :=
  world_of [http 200 (page [post_at 1699999000 "Notion sync is slow";
                            post_at 1699998000 "Best pomodoro timer?";
                            post_at 1699997000 "Moving my notes to NOTION";
                            post_at 1699996000 "Weekly planning thread";
                            post_at 1699995000 "Obsidian or Evernote";
                            post_at 1699994000 "why i left notion after a year";
                            post_at 1699993000 "Paper planners are back";
                            post_at 1699992000 "Inbox zero tips";
                            post_at 1699991000 "Calendar blocking";
                            post_at 1699990000 "Morning routine"] None)].

Definition comment_at (t : Z) : Child :=
  {| kind := "t1"; cdata := post_at t "reply" |}.

(** A thread of eleven comments followed by a "load more" stub. *)
Definition long_thread : World :=
  world_of
    [http 200
       (Ok (BArray
              [page_of "t3" [post_at 1699999000 "Notion sync is slow"] None;
               {| ldata :=
                    Some {| children :=
                              Some (map (fun i => comment_at (1699999000 + Z.of_nat i))
                                        (seq 1 11)
                                    ++ [{| kind := "more"; cdata := post_at 0 "" |}]);
                            after := None |} |}]))].

(** An upstream item whose [created_utc], in milliseconds, is one second
    past the largest time value of a [Date]. *)
Definition far_future_post : RawItem := post_at 8640000000001 "scheduled".

(** Discovery results and strategies. *)
Definition notion_sub : Sub := {| name := "Notion"; relevance := "primary" |}.

Definition notion_discovery : Discovery :=
  {| subreddits := [notion_sub]; searchTerms := ["Notion"] |}.

Definition secondary_sub : Sub := {| name := "productivity"; relevance := "secondary" |}.

Definition secondary_discovery : Discovery :=
  {| subreddits := [secondary_sub]; searchTerms := ["Notion"] |}.

Definition no_subreddits : string -> M Discovery :=
  fun _ => mret {| subreddits := []; searchTerms := [] |}.

Definition llm_down : string -> string -> M Discovery :=
  fun _ _ => throw (Error "OpenAI request failed").

Definition quick_notion : string -> M Discovery :=
  fun _ => mret notion_discovery.

(** A source that rejects every request. *)
Definition unreachable : World := world_of [].

(** A page whose body is not JSON. *)
Definition garbled_page : World := world_of [http 200 no_json].

(** Blocked, then rate limited, then a page. *)
Definition blocked_then_limited : World :=
  {| net := scripted (map (fun code => http code no_json) [403; 429]
                      ++ [http 200 (page [post_at 1699999000 "Notion sync is slow"] None)])
                     (Rejected (TypeError "fetch failed"));
     clock := fun _ => NOW |}.

(** A thread whose second comment carries a timestamp that no [Date] holds. *)
Definition broken_thread : World :=
  world_of
    [http 200
       (Ok (BArray
              [page_of "t3" [post_at 1699999000 "Notion sync is slow"] None;
               page_of "t1" [post_at 1699999100 "same here";
                             far_future_post;
                             post_at 1699999300 "fixed in the beta"] None]))].



(** * Properties *)

Ltac run :=
  unfold mbind, M_bind, bind, mret, M_ret, ret, await, throw, try_catch,
    sleep, sleep_jitter, emit, Date_now, fetch in *.

(** ** The retry loop *)

Lemma count_fetches_app (h1 h2 : history) :
  count_fetches (h1 ++ h2) = (count_fetches h1 + count_fetches h2)%nat.
Proof. unfold count_fetches. by rewrite List.filter_app, length_app. Qed.

Lemma count_sleeps_app (ms : Z) (h1 h2 : history) :
  count_sleeps ms (h1 ++ h2) = (count_sleeps ms h1 + count_sleeps ms h2)%nat.
Proof. unfold count_sleeps. by rewrite List.filter_app, length_app. Qed.

Ltac count_events :=
  rewrite ?count_fetches_app, ?count_sleeps_app;
  unfold count_fetches, count_sleeps; simpl; lia.




(** C3.  A request answered twice with status 429 and then with a
    successful response: [fetchRedditJson] issues three requests, sleeps the
    30 s cool-down after each of the two rate-limited answers, and returns
    the body of the third without throwing.  [retries] is any bound of at
    least the default 3. *)
Theorem fetchRedditJson_rate_limited_twice
    W url retries h (r1 r2 r3 : response) (b : json_body) :
  (3 <= retries)%nat ->
  let u := json_url url in
  let h1 := h ++ [EJitter] in
  let h2 := h1 ++ [EFetch u; ESleep 30000; EJitter] in
  let h3 := h2 ++ [EFetch u; ESleep 30000; EJitter] in
  net W h1 u = Resolved r1 -> status r1 = 429 ->
  net W h2 u = Resolved r2 -> status r2 = 429 ->
  net W h3 u = Resolved r3 -> ok r3 = true -> json r3 = Ok b ->
  fetchRedditJson W url retries h = (Ok (Some b), h3 ++ [EFetch u])
  /\ count_fetches (h3 ++ [EFetch u]) = (count_fetches h + 3)%nat
  /\ count_sleeps 30000 (h3 ++ [EFetch u]) = (count_sleeps 30000 h + 2)%nat.
Proof.
  intros Hretries u h1 h2 h3 N1 S1 N2 S2 N3 Hok Hjson.
  split; [|subst h1 h2 h3; split; count_events].
  destruct retries as [|[|[|n]]]; try lia.
  unfold fetchRedditJson. fold u. simpl attempts.
  assert (Hst : (status r3 =? 429) = false /\ (status r3 =? 403) = false).
  { unfold ok in Hok. apply andb_true_iff in Hok as [?%Z.leb_le ?%Z.leb_le].
    split; apply Z.eqb_neq; lia. }
  destruct Hst as [H429 H403].
  unfold attempt_try. run. fold h1.
  rewrite N1, S1. simpl.
  replace (((h1 ++ [EFetch u]) ++ [ESleep 30000]) ++ [EJitter]) with h2
    by (subst h2; by rewrite <- !app_assoc).
  rewrite N2, S2. simpl.
  replace (((h2 ++ [EFetch u]) ++ [ESleep 30000]) ++ [EJitter]) with h3
    by (subst h3; by rewrite <- !app_assoc).
  rewrite N3, H429, H403, Hok, Hjson. reflexivity.
Qed.

(** ** Pagination: what a page adds and how a loop ends *)

Lemma paginate_spec {A} (Q : A -> Prop) body fuel maxItems :
  (forall (p : pager A) h p' e h', body p h = (Ok (p', e), h') -> page_step Q p p' e) ->
  forall (p : pager A) h p' e h',
    paginate body fuel maxItems p h = (Ok (p', e), h') ->
    (exists new, allPosts p' = allPosts p ++ new /\ Forall Q new)
    /\ (fetchCount p' <= fetchCount p + fuel)%nat
    /\ exit_condition e (fetchCount p + fuel) maxItems p'.
Proof.
  intros Hbody. induction fuel as [|fuel IH]; intros p h p' e h'; simpl.
  - run. intros [= <- <- <-]. simpl. split; [|lia].
    exists []. by rewrite app_nil_r.
  - destruct (length (allPosts p) <? maxItems)%nat eqn:Hlen; simpl.
    + unfold mbind at 1, M_bind at 1, bind at 1.
      destruct (body p h) as [[[p1 [e1|]]|err] h1] eqn:Hstep; [| |done].
      * run. intros [= <- <- <-].
        destruct (Hbody _ _ _ _ _ Hstep) as [Hnew Hexit].
        split; [done|].
        destruct e1; simpl; try done; split; try lia; by destruct Hexit.
      * intros Hrest. apply IH in Hrest as ([new2 [Hnew2 HQ2]] & Hcount & Hexit).
        destruct (Hbody _ _ _ _ _ Hstep) as [[new1 [Hnew1 HQ1]] [Hfc Hcur]].
        split; [|split].
        -- exists (new1 ++ new2). split.
           ++ by rewrite Hnew2, Hnew1, app_assoc.
           ++ by apply Forall_app.
        -- lia.
        -- replace (fetchCount p + S fuel)%nat with (fetchCount p1 + fuel)%nat by lia.
           done.
    + run. intros [= <- <- <-]. simpl. apply Nat.ltb_ge in Hlen.
      split; [|split; [lia|done]]. exists []. by rewrite app_nil_r.
Qed.

Lemma paginate_total {A} (body : pager A -> M (pager A * option loop_exit))
    fuel maxItems :
  (forall p h, exists p' e h', body p h = (Ok (p', e), h')) ->
  forall p h, exists p' e h', paginate body fuel maxItems p h = (Ok (p', e), h').
Proof.
  intros Hbody. induction fuel as [|fuel IH]; intros p h; simpl.
  - run. eauto.
  - destruct (negb _); [run; eauto|].
    unfold mbind at 1, M_bind at 1, bind at 1.
    destruct (Hbody p h) as (p1 & e1 & h1 & ->).
    destruct e1 as [e1|]; [run; eauto|apply IH].
Qed.

Lemma filter_in_window oneDayAgo (posts : list RawItem) :
  Forall (fun post => in_window oneDayAgo post = true)
         (List.filter (in_window oneDayAgo) posts).
Proof. apply List.Forall_forall. intros x [_ ?]%List.filter_In. done. Qed.

Lemma mentions_page_step W companyName subs oneDayAgo p h p' e h' :
  mentions_page W companyName subs oneDayAgo p h = (Ok (p', e), h') ->
  page_step (fun post => in_window oneDayAgo post = true) p p' e.
Proof.
  unfold mentions_page.
  unfold mbind at 1, M_bind at 1, bind at 1.
  destruct (fetchRedditJson _ _ _ h) as [[data|err] h1]; [|done].
  unfold mbind at 1, M_bind at 1, bind at 1, await at 1.
  destruct (listing_data data) as [page|err]; [|done].
  destruct (page_children page) as [cs|].
  - destruct (negb (truthy_str _)) eqn:Hcur; run; intros [= <- <- <-]; simpl;
      (split; [eexists; split; [done|apply filter_in_window]|]).
    + split; [done|]. by apply negb_true_iff.
    + split; [done|]. by apply negb_false_iff.
  - run. intros [= <- <- <-]. split; [|done].
    exists []. by rewrite app_nil_r.
Qed.

Lemma normalize_run W item c h :
  normalize W item c h = (normalizeRedditItem (clock W h) item c, h).
Proof. reflexivity. Qed.

(** The [for] loop over a page never throws, leaves the history as it is
    and only appends normalised in-window posts. *)
Lemma push_recent_spec W oneDayAgo subredditName cs allPosts0 h :
  exists new thrown,
    push_recent W oneDayAgo subredditName cs allPosts0 h
      = (Ok (allPosts0 ++ new, thrown), h)
    /\ Forall (pushed_from oneDayAgo) new.
Proof.
  revert allPosts0. induction cs as [|child rest IH]; intros allPosts0; simpl.
  - exists [], None. run. by rewrite app_nil_r.
  - destruct (in_window oneDayAgo (cdata child)) eqn:Hwin; [|apply IH].
    unfold try_catch, mbind at 1, M_bind at 1, bind at 1.
    rewrite (normalize_run W).
    destruct (normalizeRedditItem (clock W h) (cdata child) subredditName)
      as [r|err] eqn:Hnorm; [|run].
    + destruct (IH (allPosts0 ++ [r])) as (new & thrown & -> & Hnew).
      exists (r :: new), thrown. split.
      * by rewrite <- app_assoc.
      * constructor; [|done]. by exists (cdata child), (clock W h), subredditName.
    + exists [], (Some err). by rewrite app_nil_r.
Qed.

Lemma subreddit_page_total W subredditName sort time oneDayAgo p h :
  exists p' e h',
    subreddit_page W subredditName sort time oneDayAgo p h = (Ok (p', e), h').
Proof.
  unfold subreddit_page.
  unfold try_catch at 1.
  unfold mbind at 1, M_bind at 1, bind at 1.
  destruct (fetchRedditJson _ _ _ h) as [[data|err] h1]; [|run; eauto].
  unfold mbind at 1, M_bind at 1, bind at 1, await at 1.
  destruct (listing_data data) as [page|err]; [|run; eauto].
  destruct (page_children page) as [cs|]; [|run; eauto].
  unfold mbind at 1, M_bind at 1, bind at 1.
  destruct (push_recent_spec W oneDayAgo subredditName cs (allPosts p) h1)
    as (new & thrown & -> & _).
  destruct thrown; [run; eauto|].
  destruct (negb _); run; eauto.
Qed.

Lemma subreddit_page_step W subredditName sort time oneDayAgo p h p' e h' :
  subreddit_page W subredditName sort time oneDayAgo p h = (Ok (p', e), h') ->
  page_step (pushed_from oneDayAgo) p p' e.
Proof.
  assert (Hnil : page_step (pushed_from oneDayAgo) p p (Some BreakCaught)).
  { split; [|done]. exists []. by rewrite app_nil_r. }
  unfold subreddit_page.
  unfold try_catch at 1.
  unfold mbind at 1, M_bind at 1, bind at 1.
  destruct (fetchRedditJson _ _ _ h) as [[data|err] h1];
    [|run; by intros [= <- <- <-]].
  unfold mbind at 1, M_bind at 1, bind at 1, await at 1.
  destruct (listing_data data) as [page|err]; [|run; by intros [= <- <- <-]].
  destruct (page_children page) as [cs|].
  - unfold mbind at 1, M_bind at 1, bind at 1.
    destruct (push_recent_spec W oneDayAgo subredditName cs (allPosts p) h1)
      as (new & thrown & -> & Hnew).
    destruct thrown.
    + run. intros [= <- <- <-]. split; [|done]. by exists new.
    + destruct (negb (truthy_str _)) eqn:Hcur; run; intros [= <- <- <-]; simpl;
        (split; [by exists new|]).
      * split; [done|]. by apply negb_true_iff.
      * split; [done|]. by apply negb_false_iff.
  - run. intros [= <- <- <-]. split; [|done]. exists []. by rewrite app_nil_r.
Qed.

(** ** Normalisation and the time window *)



Lemma mapM_normalize W c (items : list RawItem) h recs h' :
  mapM (fun item => normalize W item c) items h = (Ok recs, h') ->
  h' = h /\ Forall2 (fun item r => normalizeRedditItem (clock W h) item c = Ok r)
                    items recs.
Proof.
  revert recs h'. induction items as [|item items IH]; intros recs h'; simpl.
  - run. intros [= <- <-]. by split.
  - unfold mbind at 1, M_bind at 1, bind at 1. rewrite normalize_run.
    destruct (normalizeRedditItem (clock W h) item c) as [r|err] eqn:Hnorm; [|done].
    unfold mbind at 1, M_bind at 1, bind at 1.
    destruct (mapM _ items h) as [[rs|err] h1] eqn:Hrest; [|done].
    run. intros [= <- <-]. destruct (IH _ _ eq_refl) as [-> Hall].
    split; [done|]. by constructor.
Qed.

Lemma fetchSubredditPosts_spec W subredditName maxItems sort time h :
  exists p e h',
    subreddit_loop W (ceil_div25 maxItems) subredditName sort time maxItems
      (window_start W h) fresh h = (Ok (p, e), h')
    /\ fetchSubredditPosts W subredditName maxItems sort time h
       = (Ok (slice0 maxItems (allPosts p)), h')
    /\ Forall (pushed_from (window_start W h)) (allPosts p)
    /\ exit_condition e (ceil_div25 maxItems) maxItems p.
Proof.
  unfold subreddit_loop.
  destruct (paginate_total
              (subreddit_page W subredditName sort time (window_start W h))
              (ceil_div25 maxItems) maxItems
              (subreddit_page_total W subredditName sort time (window_start W h))
              fresh h) as (p & e & h' & Hloop).
  exists p, e, h'. split; [done|].
  pose proof (paginate_spec (pushed_from (window_start W h)) _ _ _
                (subreddit_page_step W subredditName sort time (window_start W h))
                _ _ _ _ _ Hloop) as ([new [Hnew HQ]] & _ & Hexit).
  split; [|split].
  - unfold fetchSubredditPosts, oneDayAgoTimestamp, subreddit_loop. run.
    fold (window_start W h). unfold fresh in Hloop. by rewrite Hloop.
  - by rewrite Hnew.
  - done.
Qed.

Lemma fetchRedditMentions_spec W companyName maxItems subs h recs h' :
  fetchRedditMentions W companyName maxItems subs h = (Ok recs, h') ->
  exists p e,
    mentions_loop W (ceil_div25 maxItems) companyName subs maxItems
      (window_start W h) fresh h = (Ok (p, e), h')
    /\ Forall (fun post => in_window (window_start W h) post = true) (allPosts p)
    /\ Forall2 (fun item r => normalizeRedditItem (clock W h') item companyName = Ok r)
         (slice0 maxItems (allPosts p)) recs
    /\ exit_condition e (ceil_div25 maxItems) maxItems p.
Proof.
  unfold fetchRedditMentions, oneDayAgoTimestamp.
  unfold mbind at 1, M_bind at 1, bind at 1.
  unfold mbind at 1, M_bind at 1, bind at 1, Date_now at 1.
  unfold mret at 1, M_ret at 1, ret at 1.
  fold (window_start W h). unfold try_catch.
  unfold mbind at 1, M_bind at 1, bind at 1.
  fold (@fresh RawItem).
  destruct (mentions_loop _ _ _ _ _ _ _ h) as [[[p e]|err] h1] eqn:Hloop;
    [|by unfold throw].
  destruct (mapM _ _ h1) as [[rs|err] h2] eqn:Hmap; [|by unfold throw].
  intros [= <- <-]. apply mapM_normalize in Hmap as [-> Hall].
  exists p, e. split; [done|].
  pose proof (paginate_spec _ _ _ _
                (mentions_page_step W companyName subs (window_start W h))
                _ _ _ _ _ Hloop) as ([new [Hnew HQ]] & _ & Hexit).
  split; [by rewrite Hnew|]. by split.
Qed.


(** ** The collector *)



Lemma fetchRedditJson_rate_limited_twice_witness :
  let u := "https://www.reddit.com/r/Notion/new.json?sort=new&t=day&limit=25" in
  fetchRedditJson rate_limited_twice u 3 []
  = (Ok (Some (BObject (page_of "t3" [post_at 1699999000 "Notion sync is slow"] None))),
     [EJitter; EFetch u; ESleep 30000; EJitter; EFetch u; ESleep 30000;
      EJitter; EFetch u]).
Proof.
  intros u.
  refine (proj1 (fetchRedditJson_rate_limited_twice rate_limited_twice u 3 []
            {| status := 429; statusText := ""; json := no_json |}
            {| status := 429; statusText := ""; json := no_json |}
            {| status := 200; statusText := "";
               json := page [post_at 1699999000 "Notion sync is slow"] None |}
            _ _ _ _ _ _ _ _ _));
    first [reflexivity | lia].
Defined.

(** ** The normaliser *)

(** Away from timestamps that no [Date] can hold, [normalizeRedditItem]
    returns a record, with the documented default in the place of every
    missing (or falsy) field. *)
Lemma normalizeRedditItem_defaults now item c :
  valid_date (item_created_utc item) ->
  exists r,
    normalizeRedditItem now item c = Ok r
    /\ source r = "reddit" /\ companyName r = c /\ scrapedAt r = now
    /\ (truthy_str (item_title item) = false -> title r = None)
    /\ (truthy_str (item_author item) = false -> author r = "[deleted]")
    /\ (truthy_str (item_selftext item) = false ->
        truthy_str (item_body item) = false -> body r = "")
    /\ (truthy_str (item_url item) = false ->
        sourceUrl r = "https://reddit.com" +:+ template (item_permalink item))
    /\ (truthy_num (item_score item) = false ->
        truthy_num (item_ups item) = false -> upvotes r = 0)
    /\ (truthy_num (item_num_comments item) = false -> commentCount r = 0)
    /\ (truthy_Q (item_upvote_ratio item) = false -> upvoteRatio r = None)
    /\ (truthy_str (item_link_flair_text item) = false -> flair r = None)
    /\ (truthy_num (item_created_utc item) = false -> createdAt r = None).
Proof.
  intros Hdate. unfold normalizeRedditItem.
  assert (Hiso : exists created, iso_of_seconds (item_created_utc item) = Ok created
                 /\ (truthy_num (item_created_utc item) = false -> created = None)).
  { unfold iso_of_seconds, toISOString.
    destruct (truthy_num (item_created_utc item)) eqn:Htruthy; [|by eexists].
    destruct Hdate as [|Hle%Z.leb_le]; [congruence|]. rewrite Hle. by eexists. }
  destruct Hiso as (created & -> & Hcreated).
  eexists. split; [reflexivity|]. simpl.
  repeat split; try done.
  - unfold str_or_null. by intros ->.
  - unfold truthy_str, str_or. destruct (item_author item) as [s|]; [|done].
    by intros ->%negb_false_iff.
  - unfold or_str. intros -> Hb. unfold truthy_str, str_or in *.
    destruct (item_body item) as [s|]; [|done].
    apply negb_false_iff in Hb. by rewrite Hb.
  - unfold truthy_str, str_or. destruct (item_url item) as [s|]; [|done].
    by intros ->%negb_false_iff.
  - unfold or_num. intros -> Hu. unfold truthy_num, num_or in *.
    destruct (item_ups item) as [n|]; [|done].
    apply negb_false_iff in Hu. by rewrite Hu.
  - unfold truthy_num, num_or. destruct (item_num_comments item) as [n|]; [|done].
    by intros ->%negb_false_iff.
  - unfold Q_or_null. by intros ->.
  - unfold str_or_null. by intros ->.
Qed.

(** C6.  [normalizeRedditItem] is not total: it throws a [RangeError], out
    of [toISOString], exactly on the items whose [created_utc] is truthy and
    lies beyond the range of [Date], whatever the clock and the company
    name; [far_future_post] is such an item. *)
Theorem normalizeRedditItem_throws_on_invalid_date now item c :
  (normalizeRedditItem now item c = Throw (RangeError "Invalid time value")
   <-> ~ valid_date (item_created_utc item))
  /\ normalizeRedditItem now far_future_post c
     = Throw (RangeError "Invalid time value").
Proof.
  split; [|reflexivity]. split.
  - intros Hthrow Hvalid.
    destruct (normalizeRedditItem_defaults now item c Hvalid) as (r & Hok & _).
    congruence.
  - intros Hinvalid. unfold normalizeRedditItem, iso_of_seconds, toISOString.
    destruct (truthy_num (item_created_utc item)) eqn:Htruthy.
    + destruct (Z.abs (default 0 (item_created_utc item) * 1000) <=? MAX_TIME_VALUE)
        eqn:Hrange; [|done].
      destruct Hinvalid. right. by apply Z.leb_le.
    + destruct Hinvalid. by left.
Qed.

Lemma normalizeRedditItem_throws_on_invalid_date_witness :
  ~ valid_date (item_created_utc far_future_post)
  /\ normalizeRedditItem NOW far_future_post "Notion"
     = Throw (RangeError "Invalid time value").
Proof.
  assert (Hinvalid : ~ valid_date (item_created_utc far_future_post)).
  { intros [Hfalsy|Hrange]; [done|]. vm_compute in Hrange. by destruct Hrange. }
  split; [exact Hinvalid|].
  exact (proj2 (proj1 (normalizeRedditItem_throws_on_invalid_date
                         NOW far_future_post "Notion")) Hinvalid).
Defined.

(** One such item in a page makes the Reddit-wide collector throw, while the
    subreddit collector stops paginating and returns what it has. *)
Lemma invalid_date_in_a_page :
  let W := world_of [http 200 (page [post_at 1699999000 "Notion sync is slow";
                                     far_future_post] None)] in
  (fetchRedditMentions W "Notion" 50 [] []).1
  = Throw (RangeError "Invalid time value")
  /\ length <$> (match (fetchSubredditPosts W "Notion" 50 "new" "day" []).1 with
                 | Ok recs => Some recs
                 | Throw _ => None
                 end) = Some 1%nat.
Proof. split; by vm_compute. Qed.

(** ** fetchPostComments *)

Lemma map_result_Forall2 {A B} (f : A -> result B) l ys :
  map_result f l = Ok ys -> Forall2 (fun x y => f x = Ok y) l ys.
Proof.
  revert ys. induction l as [|x l IH]; intros ys; simpl.
  - intros [= <-]. constructor.
  - destruct (f x) as [y|] eqn:Hx; [|done].
    destruct (map_result f l) as [ys'|]; [|done].
    intros [= <-]. constructor; [done|]. by apply IH.
Qed.

(** C10.  [fetchPostComments] never throws; it returns at most ten
    comments, each built from a child of kind [t1] of the thread's comment
    listing, and the empty list when the request fails (throws or runs out
    of retries) or the response has no comment listing. *)
Theorem fetchPostComments_at_most_ten_comments W permalink h :
  let fetched := fetchRedditJson W (comments_url permalink) DEFAULT_RETRIES h in
  exists cs,
    fetchPostComments W permalink h = (Ok cs, fetched.2)
    /\ (length cs <= 10)%nat
    /\ (forall c, In c cs ->
          exists data listing child,
            fetched.1 = Ok data /\ comments_listing data = Ok (Some listing)
            /\ In child listing /\ kind child = "t1" /\ comment_of child = Ok c)
    /\ ((forall b, fetched.1 <> Ok (Some b)) -> cs = [])
    /\ (forall data, fetched.1 = Ok data -> comments_listing data = Ok None -> cs = []).
Proof.
  intros fetched. unfold fetchPostComments. fold (comments_url permalink).
  unfold try_catch, mbind at 1, M_bind at 1, bind at 1. fold fetched.
  destruct fetched as [[data|err] h1] eqn:Hfetched; cbn [fst snd].
  2:{ exists []. run. repeat split; simpl; try done; lia. }
  unfold mbind at 1, M_bind at 1, bind at 1, await at 1.
  destruct (comments_listing data) as [[listing|]|err] eqn:Hlisting.
  - unfold await.
    destruct (map_result comment_of (slice0 10 (List.filter is_comment listing)))
      as [cs|err] eqn:Hmap.
    + exists cs. apply map_result_Forall2 in Hmap.
      split; [done|]. split; [|split; [|split]].
      * rewrite <- (Forall2_length _ _ _ Hmap). unfold slice0. rewrite length_take. lia.
      * intros c Hc. apply list_elem_of_In in Hc.
        destruct (proj1 (list_elem_of_lookup _ _) Hc) as [i Hi].
        destruct (Forall2_lookup_r _ _ _ _ _ Hmap Hi) as (child & Hchild & Hcomment).
        exists data, listing, child. repeat split; try done.
        -- apply lookup_take_Some in Hchild as [Hchild _].
           apply list_elem_of_lookup_2, list_elem_of_In, List.filter_In in Hchild.
           tauto.
        -- apply lookup_take_Some in Hchild as [Hchild _].
           apply list_elem_of_lookup_2, list_elem_of_In, List.filter_In in Hchild.
           destruct Hchild as [_ Hkind]. by apply String.eqb_eq in Hkind.
      * intros Hfail. destruct data as [b|]; [by destruct (Hfail b)|done].
      * intros ? [= <-] Hnone. congruence.
    + exists []. run. repeat split; simpl; try done; lia.
  - exists []. run. repeat split; simpl; try done; lia.
  - exists []. run. repeat split; simpl; try done; lia.
Qed.

(** ** The relevance filter *)

Lemma append_cons a s t : String a s +:+ t = String a (s +:+ t).
Proof. reflexivity. Qed.

Lemma prefix_append t s :
  String.prefix t s = true <-> exists suf, s = t +:+ suf.
Proof.
  revert s. induction t as [|a t IH]; intros [|b s]; simpl.
  - split; [by exists ""|done].
  - split; [by exists (String b s)|done].
  - split; [done|]. intros [suf Hsuf]. by rewrite append_cons in Hsuf.
  - destruct (Ascii.ascii_dec a b) as [->|Hne].
    + rewrite IH. split; intros [suf Hsuf]; exists suf;
        rewrite append_cons in *; congruence.
    + split; [done|]. intros [suf Hsuf]. rewrite append_cons in Hsuf. congruence.
Qed.

Lemma includes_substring s t :
  includes s t = true <-> exists pre suf, s = pre +:+ t +:+ suf.
Proof.
  induction s as [|a s IH].
  - change (includes "" t) with (String.prefix t "" || false).
    rewrite orb_false_r, prefix_append. split.
    + intros [suf ->]. by exists "", suf.
    + intros ([|? ?] & suf & Heq); [by exists suf|by rewrite append_cons in Heq].
  - change (includes (String a s) t)
      with (String.prefix t (String a s) || includes s t).
    rewrite orb_true_iff, prefix_append, IH. split.
    + intros [[suf ->]|(pre & suf & ->)]; [by exists "", suf|].
      by exists (String a pre), suf.
    + intros ([|b pre] & suf & Heq).
      * left. by exists suf.
      * right. rewrite append_cons in Heq. injection Heq as -> ->. by exists pre, suf.
Qed.

Lemma isRelevantPost_mentions post searchTerms :
  isRelevantPost post searchTerms = true <-> mentions_term post searchTerms.
Proof.
  unfold isRelevantPost, mentions_term. rewrite existsb_exists. split.
  - intros (term & Hin & (pre & suf & Heq)%includes_substring). by exists term, pre, suf.
  - intros (term & pre & suf & Hin & Heq). exists term. split; [done|].
    apply includes_substring. by exists pre, suf.
Qed.

(** ** One subreddit of the smart scrape *)

Lemma scrape_subreddit_run W companyName opts d sub acc h :
  exists posts h1,
    fetchSubredditPosts W (name sub) (maxItemsPerSubreddit opts) "new" "day" h
      = (Ok posts, h1)
    /\ scrape_subreddit W companyName opts d sub acc h
       = (Ok (acc.1 ++ map (tag companyName sub) (relevantPosts opts d sub posts),
              <[name sub := entry_of opts d sub posts]> acc.2),
          h1 ++ [ESleep RATE_LIMIT_DELAY]).
Proof.
  destruct (fetchSubredditPosts_spec W (name sub) (maxItemsPerSubreddit opts)
              "new" "day" h) as (p & e & h1 & _ & Hrun & _).
  exists (slice0 (maxItemsPerSubreddit opts) (allPosts p)), h1.
  split; [done|].
  unfold scrape_subreddit.
  unfold mbind at 1, M_bind at 1, bind at 1, try_catch.
  unfold mbind at 1, M_bind at 1, bind at 1.
  rewrite Hrun. reflexivity.
Qed.


(** ** The subreddit loop *)

Lemma scrape_subreddits_run W companyName opts d subs acc h :
  exists scrapes h',
    scraped W opts subs h scrapes h'
    /\ scrape_subreddits W companyName opts d subs acc h
       = (Ok (acc.1 ++ flat_map (kept_tagged companyName opts d) scrapes,
              foldl (record_scrape opts d) acc.2 scrapes), h').
Proof.
  revert acc h. induction subs as [|sub rest IH]; intros acc h; simpl.
  - exists [], h. split; [constructor|]. run. simpl.
    rewrite app_nil_r. by destruct acc.
  - destruct (scrape_subreddit_run W companyName opts d sub acc h)
      as (posts & h1 & Hfetch & Hrun).
    unfold mbind at 1, M_bind at 1, bind at 1. rewrite Hrun.
    destruct (IH (acc.1 ++ map (tag companyName sub) (relevantPosts opts d sub posts),
                  <[name sub := entry_of opts d sub posts]> acc.2)
                 (h1 ++ [ESleep RATE_LIMIT_DELAY]))
      as (more & h2 & Hmore & Hrest).
    exists ((sub, posts) :: more), h2. split; [by econstructor|].
    rewrite Hrest. simpl. by rewrite <- app_assoc.
Qed.

Lemma scraped_subs W opts subs h scrapes h' :
  scraped W opts subs h scrapes h' -> map fst scrapes = subs.
Proof. induction 1; simpl; congruence. Qed.

(** Every entry of the final map satisfies what the initial entries and the
    recorded ones satisfy. *)
Lemma recorded_entries opts d (P : SubredditResult -> Prop) scrapes :
  (forall sub posts, P (entry_of opts d sub posts)) ->
  forall results : gmap string SubredditResult,
    (forall nm e, results !! nm = Some e -> P e) ->
    forall nm e, foldl (record_scrape opts d) results scrapes !! nm = Some e -> P e.
Proof.
  intros Hentry. induction scrapes as [|[sub posts] more IH]; intros results Hres;
    simpl; [done|].
  apply IH. intros nm e. unfold record_scrape. simpl.
  destruct (decide (name sub = nm)) as [<-|Hne].
  - rewrite lookup_insert_eq. intros [= <-]. apply Hentry.
  - rewrite lookup_insert_ne by done. apply Hres.
Qed.

(** Every scraped subreddit has an entry. *)
Lemma recorded_names opts d scrapes (results : gmap string SubredditResult) nm :
  is_Some (results !! nm) \/ In nm (map (fun s => name s.1) scrapes) ->
  is_Some (foldl (record_scrape opts d) results scrapes !! nm).
Proof.
  revert results. induction scrapes as [|[sub posts] more IH]; intros results; simpl.
  - by intros [|[]].
  - intros Hnm. apply IH. unfold record_scrape. simpl.
    destruct (decide (name sub = nm)) as [<-|Hne].
    + left. by rewrite lookup_insert_eq.
    + rewrite lookup_insert_ne by done. destruct Hnm as [|[|]]; [by left|done|by right].
Qed.

(** ** Failing sources *)



(** ** The smart scrape as a whole *)

Section SmartScrapeFacts.
Context (W : World).
Context (discoverSubreddits : string -> string -> M Discovery).
Context (quickDiscoverSubreddits : string -> M Discovery).
Context (OPENAI_API_KEY : option string).

Lemma scrape_discovered_inv companyName opts d h r h' :
  scrape_discovered W companyName opts d h = (Ok r, h') ->
  (subreddits d = []
   /\ exists found,
        fetchRedditMentions W companyName 50 [] h = (Ok found, h')
        /\ r = {| discovery := {| subreddits := []; searchTerms := [companyName] |};
                  mentions := map untagged found;
                  subredditResults := ∅ |})
  \/ (subreddits d <> []
      /\ exists scrapes,
           scraped W opts (subreddits d) h scrapes h'
           /\ r = {| discovery := d;
                     mentions := flat_map (kept_tagged companyName opts d) scrapes;
                     subredditResults := foldl (record_scrape opts d) ∅ scrapes |}).
Proof.
  unfold scrape_discovered.
  destruct (subreddits d) as [|sub rest] eqn:Hsubs; cbn [length Nat.eqb].
  - unfold mbind at 1, M_bind at 1, bind at 1.
    destruct (fetchRedditMentions W companyName 50 [] h) as [[found|err] h1]; [|done].
    run. intros [= <- <-]. left. split; [done|]. by exists found.
  - unfold mbind at 1, M_bind at 1, bind at 1.
    destruct (scrape_subreddits_run W companyName opts d (sub :: rest) ([], ∅) h)
      as (scrapes & h1 & Hscraped & Hrun).
    cbn [fst snd app] in Hrun. rewrite Hrun. run. intros [= <- <-].
    right. split; [done|]. by exists scrapes.
Qed.

Lemma smartScrape_inv companyName opts h r h' :
  smartScrape W discoverSubreddits quickDiscoverSubreddits OPENAI_API_KEY
    companyName opts h = (Ok r, h') ->
  exists d h1,
    discover discoverSubreddits quickDiscoverSubreddits OPENAI_API_KEY
      companyName opts h = (Ok d, h1)
    /\ scrape_discovered W companyName opts d h1 = (Ok r, h').
Proof.
  unfold smartScrape. unfold mbind at 1, M_bind at 1, bind at 1.
  destruct (discover _ _ _ companyName opts h) as [[d|err] h1]; [|done].
  intros Hrest. by exists d, h1.
Qed.

End SmartScrapeFacts.

(** ** Counts and mentions *)

Lemma entry_of_counts opts d sub posts :
  let e := entry_of opts d sub posts in
  (relevant e <= total e)%nat
  /\ (res_relevance e <> Some "secondary" \/ filterSecondary opts = false ->
      relevant e = total e).
Proof.
  unfold entry_of, relevantPosts, filters. simpl. split.
  - destruct (_ && _); [apply List.filter_length_le|done].
  - intros Hnot. destruct (filterSecondary opts); simpl; [|done].
    destruct (String.eqb (relevance sub) "secondary") eqn:Hsec; [|done].
    apply String.eqb_eq in Hsec. destruct Hnot as [Hnot|]; [|done].
    by destruct Hnot; f_equal.
Qed.

Lemma foldl_record_other opts d scrapes (results : gmap string SubredditResult) nm :
  ~ In nm (map (fun s => name s.1) scrapes) ->
  foldl (record_scrape opts d) results scrapes !! nm = results !! nm.
Proof.
  revert results. induction scrapes as [|[sub posts] more IH]; intros results Hnot;
    simpl in *; [done|].
  rewrite IH by tauto. unfold record_scrape. simpl.
  apply lookup_insert_ne. tauto.
Qed.

Lemma foldl_record_NoDup opts d scrapes (results : gmap string SubredditResult)
    sub posts :
  List.NoDup (map (fun s => name s.1) scrapes) ->
  In (sub, posts) scrapes ->
  foldl (record_scrape opts d) results scrapes !! name sub
  = Some (entry_of opts d sub posts).
Proof.
  revert results. induction scrapes as [|[sub0 posts0] more IH]; intros results Hnodup;
    simpl in *; [done|].
  apply List.NoDup_cons_iff in Hnodup as [Hfresh Hnodup].
  intros [[= -> ->]|Hin].
  - rewrite foldl_record_other by done. unfold record_scrape. simpl.
    apply lookup_insert_eq.
  - by apply IH.
Qed.

Lemma kept_tagged_length companyName opts d scrapes :
  length (flat_map (kept_tagged companyName opts d) scrapes)
  = sum_list (map (fun s => length (relevantPosts opts d s.1 s.2)) scrapes).
Proof.
  induction scrapes as [|s more IH]; simpl; [done|].
  rewrite length_app, IH. unfold kept_tagged. by rewrite length_map.
Qed.

(** C9 (amended).  In every result of [smartScrape], an entry of
    [subredditResults] without error has [relevant <= total], with equality
    when its relevance is not [secondary] or filtering is off.  When the
    result reports discovered subreddits, [mentions] is the concatenation,
    in their order, of the tagged posts kept from each subreddit's scrape,
    its length is the sum of the kept counts, and with distinct subreddit
    names each scrape's counts are the subreddit's entry. *)
Theorem smartScrape_counts_and_mentions
    W discoverSubreddits quickDiscoverSubreddits OPENAI_API_KEY
    companyName opts h r h' :
  smartScrape W discoverSubreddits quickDiscoverSubreddits OPENAI_API_KEY
    companyName opts h = (Ok r, h') ->
  (forall nm e,
      subredditResults r !! nm = Some e -> res_error e = None ->
      (relevant e <= total e)%nat
      /\ (res_relevance e <> Some "secondary" \/ filterSecondary opts = false ->
          relevant e = total e))
  /\ (subreddits (discovery r) <> [] ->
      exists scrapes,
        map fst scrapes = subreddits (discovery r)
        /\ mentions r = flat_map (kept_tagged companyName opts (discovery r)) scrapes
        /\ subredditResults r = foldl (record_scrape opts (discovery r)) ∅ scrapes
        /\ length (mentions r)
           = sum_list (map (fun s => length (relevantPosts opts (discovery r) s.1 s.2))
                           scrapes)
        /\ (List.NoDup (map name (subreddits (discovery r))) ->
            forall sub posts, In (sub, posts) scrapes ->
              subredditResults r !! name sub
              = Some (entry_of opts (discovery r) sub posts))).
Proof.
  intros Hrun. apply smartScrape_inv in Hrun as (d & h1 & _ & Hrun).
  apply scrape_discovered_inv in Hrun
    as [(_ & found & _ & ->)|(Hsubs & scrapes & Hscraped & ->)]; simpl.
  - split; [|done]. intros nm e. by rewrite lookup_empty.
  - split.
    + intros nm e He _. revert nm e He.
      apply (recorded_entries opts d
               (fun e => (relevant e <= total e)%nat
                         /\ (res_relevance e <> Some "secondary"
                             \/ filterSecondary opts = false ->
                             relevant e = total e))).
      * intros sub posts. apply entry_of_counts.
      * intros nm e. by rewrite lookup_empty.
    + intros _. exists scrapes. apply scraped_subs in Hscraped.
      split; [done|]. split; [done|]. split; [done|].
      split; [apply kept_tagged_length|].
      intros Hnodup sub posts Hin. apply foldl_record_NoDup; [|done].
      by rewrite <- Hscraped, List.map_map in Hnodup.
Qed.

(** ** Discovery *)

(** C8.  When the LLM-assisted discovery is selected and its call throws,
    the error is caught inside [smartScrape]: discovery is the result of the
    heuristic [quickDiscoverSubreddits], run from where the failed call
    ended, and the scrape goes on with it. *)
Theorem llm_discovery_failure_falls_back
    W discoverSubreddits quickDiscoverSubreddits OPENAI_API_KEY
    companyName opts h e h1 :
  useQuickDiscovery opts = false ->
  truthy_str OPENAI_API_KEY = true ->
  discoverSubreddits companyName (companyContext opts) h = (Throw e, h1) ->
  discover discoverSubreddits quickDiscoverSubreddits OPENAI_API_KEY companyName opts h
  = quickDiscoverSubreddits companyName h1
  /\ smartScrape W discoverSubreddits quickDiscoverSubreddits OPENAI_API_KEY
       companyName opts h
     = (d ← quickDiscoverSubreddits companyName ;
        scrape_discovered W companyName opts d) h1
  /\ forall d h2,
       quickDiscoverSubreddits companyName h1 = (Ok d, h2) ->
       smartScrape W discoverSubreddits quickDiscoverSubreddits OPENAI_API_KEY
         companyName opts h
       = scrape_discovered W companyName opts d h2.
Proof.
  intros Hquick Hkey Hthrow.
  assert (Hdiscover :
            discover discoverSubreddits quickDiscoverSubreddits OPENAI_API_KEY
              companyName opts h = quickDiscoverSubreddits companyName h1).
  { unfold discover, try_catch. rewrite Hquick, Hkey. cbn [orb negb]. by rewrite Hthrow. }
  split; [done|].
  assert (Hsmart :
            smartScrape W discoverSubreddits quickDiscoverSubreddits OPENAI_API_KEY
              companyName opts h
            = (d ← quickDiscoverSubreddits companyName ;
               scrape_discovered W companyName opts d) h1).
  { unfold smartScrape. unfold mbind, M_bind, bind. by rewrite Hdiscover. }
  split; [done|].
  intros d h2 Hd. rewrite Hsmart. unfold mbind, M_bind, bind. by rewrite Hd.
Qed.

(** ** How pagination ends *)




(** ** The impact score *)

(** C7.  The impact score is the weighted sum
    [reach * 0.4 + sentiment * 0.3 + velocity * 0.3] clamped to [0, 10];
    sub-scores 8, 6 and 4 give 6.2. *)
Theorem impactScore_weighted_and_clamped (r s v : Q) :
  (Impact.impactScore r s v == Qmax 0 (Qmin 10 (r * 0.4 + s * 0.3 + v * 0.3)))%Q
  /\ (0 <= Impact.impactScore r s v)%Q
  /\ (Impact.impactScore r s v <= 10)%Q
  /\ (Impact.impactScore 8 6 4 == 6.2)%Q.
Proof.
  unfold Impact.impactScore, Impact.weighted_sum, Impact.breakdown; simpl.
  set (x := (r * 0.4 + s * 0.3 + v * 0.3)%Q).
  split; [|split; [|split]].
  - unfold Impact.clamp.
    destruct (Qlt_le_dec x 0) as [Hlo|Hlo].
    + rewrite (Q.min_r 10 x) by (apply Qlt_le_weak, Qlt_trans with 0%Q; done).
      by rewrite Q.max_l by (by apply Qlt_le_weak).
    + destruct (Qlt_le_dec 10 x) as [Hhi|Hhi].
      * rewrite (Q.min_l 10 x) by (by apply Qlt_le_weak). by rewrite Q.max_r.
      * rewrite (Q.min_r 10 x) by done. by rewrite Q.max_r.
  - unfold Impact.clamp.
    destruct (Qlt_le_dec x 0); [done|]. by destruct (Qlt_le_dec 10 x).
  - unfold Impact.clamp.
    destruct (Qlt_le_dec x 0); [done|]. by destruct (Qlt_le_dec 10 x).
  - reflexivity.
Qed.

(** * Concrete runs *)

(** ** A source that is rate-limited for ever *)




(** ** Pages that do not fill the budget, and a stale first page *)




(** ** Discovery that finds nothing, fails, or finds a secondary source *)

(** C9, counterexample.  No subreddit is discovered, so [smartScrape]
    searches Reddit-wide: [mentions] holds the two posts found while
    [subredditResults] is empty. *)
Lemma fallback_mentions_are_not_counted : ~ mentions_are_counted_posts.
Proof.
  intros Hclaim.
  destruct (fetchRedditMentions two_pages "Notion" 50 [] []) as [[found|err] h']
    eqn:Hfound; [|by vm_compute in Hfound].
  assert (Hlen : length found = 2%nat).
  { vm_compute in Hfound. by injection Hfound as <- _. }
  assert (Hrun : smartScrape two_pages llm_down no_subreddits None "Notion"
                   default_options []
                 = (Ok {| discovery := {| subreddits := []; searchTerms := ["Notion"] |};
                          mentions := map untagged found;
                          subredditResults := ∅ |}, h')).
  { unfold smartScrape, discover, no_subreddits, try_catch.
    cbn [useQuickDiscovery default_options orb truthy_str negb].
    unfold mbind at 1, M_bind at 1, bind at 1, mret at 1, M_ret at 1, ret at 1.
    unfold scrape_discovered. cbn [subreddits length Nat.eqb].
    unfold mbind at 1, M_bind at 1, bind at 1. by rewrite Hfound. }
  destruct found as [|post found]; [done|].
  destruct (Hclaim _ _ _ _ _ _ _ _ _ Hrun (untagged post)) as (nm & e & He & _).
  - by left.
  - cbn [subredditResults] in He. by rewrite lookup_empty in He.
Qed.


Lemma smartScrape_counts_and_mentions_witness :
  exists r h',
    smartScrape ten_posts llm_down (fun _ => mret secondary_discovery) None
      "Notion" default_options [] = (Ok r, h')
    /\ length (mentions r) = 3%nat
    /\ (forall nm e,
          subredditResults r !! nm = Some e -> res_error e = None ->
          (relevant e <= total e)%nat
          /\ (res_relevance e <> Some "secondary"
              \/ filterSecondary default_options = false ->
              relevant e = total e))
    /\ exists scrapes,
         map fst scrapes = [secondary_sub]
         /\ mentions r = flat_map (kept_tagged "Notion" default_options (discovery r))
                            scrapes
         /\ subredditResults r
            = foldl (record_scrape default_options (discovery r)) ∅ scrapes.
Proof.
  destruct (smartScrape ten_posts llm_down (fun _ => mret secondary_discovery) None
              "Notion" default_options []) as [[r|err] h'] eqn:Hrun.
  2:{ apply (f_equal (fun x => is_ok x.1)) in Hrun. by vm_compute in Hrun. }
  exists r, h'. split; [reflexivity|].
  destruct (smartScrape_counts_and_mentions _ _ _ _ _ _ _ _ _ Hrun)
    as [Hentries Hmentions].
  assert (Hval : match (Ok r, h').1 with
                 | Ok r => Some (length (mentions r), subreddits (discovery r))
                 | Throw _ => None
                 end = Some (3%nat, [secondary_sub])).
  { rewrite <- Hrun. vm_compute. reflexivity. }
  cbn [fst] in Hval. injection Hval as Hthree Hsubs.
  split; [exact Hthree|]. split; [exact Hentries|].
  destruct Hmentions as (scrapes & Hfst & Hm & Hres & _).
  { by rewrite Hsubs. }
  exists scrapes. split; [by rewrite Hfst, Hsubs|]. by split.
Defined.

Lemma llm_discovery_failure_falls_back_witness :
  smartScrape two_pages llm_down quick_notion (Some "sk-test") "Notion"
    default_options []
  = scrape_discovered two_pages "Notion" default_options notion_discovery [].
Proof.
  exact (proj2 (proj2 (llm_discovery_failure_falls_back two_pages llm_down
                         quick_notion (Some "sk-test") "Notion" default_options []
                         (Error "OpenAI request failed") []
                         eq_refl eq_refl eq_refl))
           notion_discovery [] eq_refl).
Defined.

(** ** A comment thread *)

Lemma fetchPostComments_at_most_ten_comments_witness :
  exists cs h',
    fetchPostComments long_thread "/r/Notion/comments/1" [] = (Ok cs, h')
    /\ length cs = 10%nat
    /\ forall c, In c cs -> c_body c = None /\ c_upvotes c = 3.
Proof.
  destruct (fetchPostComments_at_most_ten_comments long_thread "/r/Notion/comments/1" [])
    as (cs & Hrun & Hlen & Hfrom & _).
  exists cs, (fetchRedditJson long_thread (comments_url "/r/Notion/comments/1")
                DEFAULT_RETRIES []).2.
  split; [exact Hrun|].
  assert (Hval : match (Ok cs, (fetchRedditJson long_thread
                                  (comments_url "/r/Notion/comments/1")
                                  DEFAULT_RETRIES []).2).1 with
                 | Ok cs => Some (length cs)
                 | Throw _ => None
                 end = Some 10%nat).
  { rewrite <- Hrun. vm_compute. reflexivity. }
  cbn [fst] in Hval. injection Hval as Hten. split; [exact Hten|].
  intros c Hc. destruct (Hfrom c Hc) as (data & listing & child & Hdata & Hlisting
                                          & Hchild & Hkind & Hcomment).
  assert (Hd : data = Some (BArray
              [page_of "t3" [post_at 1699999000 "Notion sync is slow"] None;
               {| ldata :=
                    Some {| children :=
                              Some (map (fun i => comment_at (1699999000 + Z.of_nat i))
                                        (seq 1 11)
                                    ++ [{| kind := "more"; cdata := post_at 0 "" |}]);
                            after := None |} |}])).
  { vm_compute in Hdata. by injection Hdata as <-. }
  subst data. injection Hlisting as <-.
  simpl in Hchild.
  repeat (destruct Hchild as [<-|Hchild];
          [first [by injection Hcomment as <- | done]|]).
  done.
Defined.

(** * Further properties of the scraper *)

(** ** The retry loop, continued *)

Lemma total_sleep_app (h1 h2 : history) :
  total_sleep (h1 ++ h2) = total_sleep h1 + total_sleep h2.
Proof.
  unfold total_sleep. induction h1 as [|[| |] h1 IH]; simpl; lia.
Qed.

Lemma count_jitters_app (h1 h2 : history) :
  count_jitters (h1 ++ h2) = (count_jitters h1 + count_jitters h2)%nat.
Proof. unfold count_jitters. by rewrite List.filter_app, length_app. Qed.

Lemma requested_urls_app (h1 h2 : history) :
  requested_urls (h1 ++ h2) = requested_urls h1 ++ requested_urls h2.
Proof. apply omap_app. Qed.

(** What one attempt appends to the history. *)
Lemma attempt_trace W jsonUrl retries attempt h :
  exists ext,
    (try_catch (attempt_try W jsonUrl) (attempt_catch retries attempt) h).2 = h ++ ext
    /\ count_fetches ext = 1%nat /\ count_jitters ext = 1%nat
    /\ 0 <= total_sleep ext <= 30000
    /\ requested_urls ext = [jsonUrl].
Proof.
  unfold attempt_try, attempt_catch. run.
  destruct (net W (h ++ [EJitter]) jsonUrl) as [e|resp].
  - destruct (attempt =? retries)%nat; simpl; rewrite <- ?app_assoc;
      eexists; (split; [reflexivity|]); simpl; repeat split; try done; lia.
  - destruct (status resp =? 429); [|destruct (status resp =? 403);
      [|destruct (negb (ok resp)); [destruct (attempt =? retries)%nat|]]];
      simpl; rewrite <- ?app_assoc;
      eexists; (split; [reflexivity|]); simpl; repeat split; try done; lia.
Qed.

Lemma attempts_trace W fuel jsonUrl retries attempt h :
  exists ext,
    (attempts W fuel jsonUrl retries attempt h).2 = h ++ ext
    /\ (count_fetches ext <= fuel)%nat
    /\ count_jitters ext = count_fetches ext
    /\ 0 <= total_sleep ext <= 30000 * Z.of_nat fuel
    /\ Forall (fun u => u = jsonUrl) (requested_urls ext).
Proof.
  revert attempt h. induction fuel as [|fuel IH]; intros attempt h.
  - exists []. simpl. run. simpl. rewrite app_nil_r. repeat split; try done; lia.
  - simpl attempts. unfold mbind at 1, M_bind at 1, bind at 1.
    destruct (attempt_trace W jsonUrl retries attempt h)
      as (ext1 & Hext1 & Hf1 & Hj1 & Hs1 & Hu1).
    destruct (try_catch _ _ h) as [[[|promise]|e] h1] eqn:Hone;
      simpl in Hext1; subst h1.
    + destruct (IH (S attempt) (h ++ ext1)) as (ext2 & Hext2 & Hf2 & Hj2 & Hs2 & Hu2).
      exists (ext1 ++ ext2). rewrite Hext2, <- app_assoc.
      rewrite count_fetches_app, count_jitters_app, total_sleep_app, requested_urls_app.
      repeat split; try lia. rewrite Hu1. by constructor.
    + exists ext1. run. destruct promise; simpl; rewrite Hu1;
        repeat split; try lia; by repeat constructor.
    + exists ext1. simpl. rewrite Hu1. repeat split; try lia; by repeat constructor.
Qed.

Lemma append_nil_r s : s +:+ "" = s.
Proof. induction s as [|a s IH]; [done|]. by rewrite append_cons, IH. Qed.

(** The URL that [fetchRedditJson] requests always contains [.json], and a
    URL that already contains it is requested as it is. *)
Lemma json_url_has_suffix url :
  includes (json_url url) ".json" = true
  /\ json_url (json_url url) = json_url url
  /\ (includes url ".json" = true -> json_url url = url).
Proof.
  assert (Hin : includes (json_url url) ".json" = true).
  { unfold json_url. destruct (includes url ".json") eqn:Hhas; [done|].
    apply includes_substring. exists url, "". by rewrite append_nil_r. }
  split; [exact Hin|]. split.
  - unfold json_url at 1. by rewrite Hin.
  - intros Hhas. unfold json_url. by rewrite Hhas.
Qed.

(** X1.  Whatever the network does, a call of [fetchRedditJson] only adds to
    the history: at most [retries] requests, each preceded by its own
    jitter, all of them to one URL that contains [.json], and fixed sleeps
    of at most 30 s per attempt. *)
Theorem fetchRedditJson_trace W url retries h :
  exists ext,
    (fetchRedditJson W url retries h).2 = h ++ ext
    /\ (count_fetches ext <= retries)%nat
    /\ count_jitters ext = count_fetches ext
    /\ 0 <= total_sleep ext <= 30000 * Z.of_nat retries
    /\ Forall (fun u => u = json_url url /\ includes u ".json" = true)
              (requested_urls ext).
Proof.
  unfold fetchRedditJson.
  destruct (attempts_trace W retries (json_url url) retries 1 h)
    as (ext & Hext & Hfetches & Hjitters & Hsleep & Hurls).
  exists ext. repeat split; try done; try lia.
  eapply Forall_impl; [exact Hurls|]. intros u ->. split; [done|].
  apply json_url_has_suffix.
Qed.

Lemma attempts_told_to_wait W jsonUrl retries :
  always_told_to_wait W ->
  forall fuel attempt h,
  exists ext,
    attempts W fuel jsonUrl retries attempt h = (Ok None, h ++ ext)
    /\ count_fetches ext = fuel
    /\ 10000 * Z.of_nat fuel <= total_sleep ext.
Proof.
  intros Hwait. induction fuel as [|fuel IH]; intros attempt h.
  - exists []. simpl. run. rewrite app_nil_r. repeat split; try done.
  - simpl attempts. unfold mbind at 1, M_bind at 1, bind at 1.
    unfold attempt_try. run.
    destruct (Hwait (h ++ [EJitter]) jsonUrl) as (r & -> & [Hstatus|Hstatus]);
      rewrite Hstatus; simpl.
    + destruct (IH (S attempt) (((h ++ [EJitter]) ++ [EFetch jsonUrl]) ++ [ESleep 30000]))
        as (ext & Hrun & Hcount & Hsleep).
      exists ([EJitter; EFetch jsonUrl; ESleep 30000] ++ ext).
      rewrite Hrun, <- !app_assoc. split; [done|].
      rewrite count_fetches_app, total_sleep_app. split.
      * unfold count_fetches at 1. simpl. lia.
      * unfold total_sleep at 1. simpl. lia.
    + destruct (IH (S attempt) (((h ++ [EJitter]) ++ [EFetch jsonUrl]) ++ [ESleep 10000]))
        as (ext & Hrun & Hcount & Hsleep).
      exists ([EJitter; EFetch jsonUrl; ESleep 10000] ++ ext).
      rewrite Hrun, <- !app_assoc. split; [done|].
      rewrite count_fetches_app, total_sleep_app. split.
      * unfold count_fetches at 1. simpl. lia.
      * unfold total_sleep at 1. simpl. lia.
Qed.

(** X2.  When every answer is a 429 or a 403, [fetchRedditJson] does not
    throw: after [retries] requests, and between 10 s and 30 s of cool-down
    for each, it returns [undefined]. *)
Theorem fetchRedditJson_gives_up_silently W url retries h :
  always_told_to_wait W ->
  exists ext,
    fetchRedditJson W url retries h = (Ok None, h ++ ext)
    /\ count_fetches ext = retries
    /\ 10000 * Z.of_nat retries <= total_sleep ext <= 30000 * Z.of_nat retries.
Proof.
  intros Hwait. unfold fetchRedditJson.
  destruct (attempts_told_to_wait W (json_url url) retries Hwait retries 1%nat h)
    as (ext & Hrun & Hcount & Hsleep).
  exists ext. split; [done|]. split; [done|]. split; [done|].
  destruct (attempts_trace W retries (json_url url) retries 1 h)
    as (ext' & Hext' & _ & _ & Hs & _).
  rewrite Hrun in Hext'. simpl in Hext'. apply app_inv_head in Hext'. subst ext'. lia.
Qed.

Lemma always_rate_limited_told_to_wait : always_told_to_wait always_rate_limited.
Proof. intros h u. eexists. split; [reflexivity|]. by left. Qed.

Lemma fetchRedditJson_gives_up_silently_witness :
  always_told_to_wait always_rate_limited
  /\ exists ext,
       fetchRedditJson always_rate_limited "https://www.reddit.com/search.json" 3 []
       = (Ok None, ext)
       /\ count_fetches ext = 3%nat.
Proof.
  split; [exact always_rate_limited_told_to_wait|].
  destruct (fetchRedditJson_gives_up_silently always_rate_limited
              "https://www.reddit.com/search.json" 3 []
              always_rate_limited_told_to_wait) as (ext & Hrun & Hcount & _).
  exists ext. by split.
Defined.

(** One attempt against a failing source: the [catch] block decides. *)
Lemma attempt_failing W jsonUrl retries attempt h :
  always_failing W ->
  exists e,
    try_catch (attempt_try W jsonUrl) (attempt_catch retries attempt) h
    = attempt_catch retries attempt e (h ++ [EJitter; EFetch jsonUrl])
    /\ forall e0, (forall h u, net W h u = Rejected e0) -> e = e0.
Proof.
  intros Hfail. unfold attempt_try. run.
  destruct (Hfail (h ++ [EJitter]) jsonUrl)
    as [[e Hnet]|(r & Hnet & H429 & H403 & Hok)]; rewrite Hnet.
  - exists e. rewrite <- app_assoc. split; [done|].
    intros e0 Hall. rewrite Hall in Hnet. congruence.
  - apply Z.eqb_neq in H429, H403. rewrite H429, H403, Hok. simpl.
    eexists. rewrite <- app_assoc. split; [done|].
    intros e0 Hall. rewrite Hall in Hnet. congruence.
Qed.

Lemma attempts_failing W jsonUrl retries :
  always_failing W ->
  forall fuel attempt h,
    (attempt + fuel = retries)%nat ->
    exists e ext,
      attempts W (S fuel) jsonUrl retries attempt h = (Throw e, h ++ ext)
      /\ count_fetches ext = S fuel
      /\ total_sleep ext = 5000 * Z.of_nat fuel
      /\ forall e0, (forall h u, net W h u = Rejected e0) -> e = e0.
Proof.
  intros Hfail. induction fuel as [|fuel IH]; intros attempt h Hsum.
  - simpl attempts. unfold mbind at 1, M_bind at 1, bind at 1.
    destruct (attempt_failing W jsonUrl retries attempt h Hfail) as (e & -> & He).
    unfold attempt_catch. replace (attempt =? retries)%nat with true
      by (symmetry; apply Nat.eqb_eq; lia).
    exists e, [EJitter; EFetch jsonUrl]. run. by repeat split.
  - change (attempts W (S (S fuel)) jsonUrl retries attempt h)
      with ((r ← try_catch (attempt_try W jsonUrl) (attempt_catch retries attempt) ;
             match r with
             | Return promise => b ← await promise ; mret (Some b)
             | Continue => attempts W (S fuel) jsonUrl retries (S attempt)
             end) h).
    unfold mbind at 1, M_bind at 1, bind at 1.
    destruct (attempt_failing W jsonUrl retries attempt h Hfail) as (e1 & -> & _).
    unfold attempt_catch. replace (attempt =? retries)%nat with false
      by (symmetry; apply Nat.eqb_neq; lia).
    run.
    destruct (IH (S attempt) ((h ++ [EJitter; EFetch jsonUrl]) ++ [ESleep 5000]))
      as (e & ext & Hrun & Hcount & Hsleep & He); [lia|].
    exists e, ([EJitter; EFetch jsonUrl; ESleep 5000] ++ ext).
    rewrite Hrun, <- !app_assoc. split; [done|].
    rewrite count_fetches_app, total_sleep_app. split; [|split; [|done]].
    + unfold count_fetches at 1. simpl. lia.
    + unfold total_sleep at 1. simpl. lia.
Qed.

(** X3.  When every request is rejected or answered with an error status
    other than 429 and 403, [fetchRedditJson] throws: it makes [retries]
    requests, sleeps 5 s between two of them and none after the last, and
    throws the error of the last attempt (the rejection itself when the
    source always rejects with the same error). *)
Theorem fetchRedditJson_throws_after_failures W url retries h :
  always_failing W ->
  (0 < retries)%nat ->
  exists e ext,
    fetchRedditJson W url retries h = (Throw e, h ++ ext)
    /\ count_fetches ext = retries
    /\ total_sleep ext = 5000 * (Z.of_nat retries - 1)
    /\ forall e0, (forall h u, net W h u = Rejected e0) -> e = e0.
Proof.
  intros Hfail Hretries. unfold fetchRedditJson.
  destruct retries as [|fuel]; [lia|].
  destruct (attempts_failing W (json_url url) (S fuel) Hfail fuel 1%nat h)
    as (e & ext & Hrun & Hcount & Hsleep & He); [lia|].
  exists e, ext. repeat split; try done. lia.
Qed.

Lemma unreachable_always_failing : always_failing unreachable.
Proof.
  intros h u. left. exists (TypeError "fetch failed").
  unfold unreachable, world_of, scripted. simpl. by destruct (count_fetches h).
Qed.

Lemma fetchRedditJson_throws_after_failures_witness :
  always_failing unreachable
  /\ exists ext,
       fetchRedditJson unreachable "https://www.reddit.com/search.json" 3 []
       = (Throw (TypeError "fetch failed"), ext)
       /\ count_fetches ext = 3%nat /\ total_sleep ext = 10000.
Proof.
  split; [exact unreachable_always_failing|].
  destruct (fetchRedditJson_throws_after_failures unreachable
              "https://www.reddit.com/search.json" 3 []
              unreachable_always_failing ltac:(lia))
    as (e & ext & Hrun & Hcount & Hsleep & He).
  exists ext. rewrite Hrun.
  rewrite (He (TypeError "fetch failed")).
  - by repeat split.
  - intros h u. unfold unreachable, world_of, scripted. simpl.
    by destruct (count_fetches h).
Defined.

(** X4.  A successful response whose body does not parse is not retried:
    [return response.json()] leaves the [try] block before the promise
    settles, so the parse error is thrown after a single request, whatever
    the number of retries left. *)
Theorem fetchRedditJson_does_not_retry_bad_json W url retries h r e :
  (0 < retries)%nat ->
  net W (h ++ [EJitter]) (json_url url) = Resolved r ->
  ok r = true ->
  json r = Throw e ->
  fetchRedditJson W url retries h
  = (Throw e, h ++ [EJitter; EFetch (json_url url)]).
Proof.
  intros Hretries Hnet Hok Hjson. unfold fetchRedditJson.
  destruct retries as [|fuel]; [lia|]. simpl attempts.
  assert (Hst : (status r =? 429) = false /\ (status r =? 403) = false).
  { unfold ok in Hok. apply andb_true_iff in Hok as [?%Z.leb_le ?%Z.leb_le].
    split; apply Z.eqb_neq; lia. }
  destruct Hst as [H429 H403].
  unfold attempt_try. run.
  rewrite Hnet, H429, H403, Hok, Hjson. simpl. by rewrite <- app_assoc.
Qed.

Lemma fetchRedditJson_does_not_retry_bad_json_witness :
  fetchRedditJson garbled_page "https://www.reddit.com/search.json" 3 []
  = (Throw (SyntaxError "Unexpected end of JSON input"),
     [EJitter; EFetch "https://www.reddit.com/search.json"]).
Proof.
  exact (fetchRedditJson_does_not_retry_bad_json garbled_page
           "https://www.reddit.com/search.json" 3 []
           {| status := 200; statusText := ""; json := no_json |}
           (SyntaxError "Unexpected end of JSON input")
           ltac:(lia) eq_refl eq_refl eq_refl).
Defined.

Lemma attempts_scripted rest clk jsonUrl retries b codes :
  Forall (fun code => code = 429 \/ code = 403) codes ->
  forall pre fuel attempt h,
    count_fetches h = length pre ->
    let W := {| net := scripted (pre ++ answers codes b) rest; clock := clk |} in
    exists ext,
      attempts W fuel jsonUrl retries attempt h
      = (Ok (if (length codes <? fuel)%nat then Some b else None), h ++ ext)
      /\ count_fetches ext = Nat.min fuel (S (length codes))
      /\ ((length codes < fuel)%nat -> total_sleep ext = cool_downs codes).
Proof.
  induction 1 as [|code codes Hcode _ IH]; intros pre fuel attempt h Hpre W.
  - destruct fuel as [|fuel].
    + exists []. simpl. run. rewrite app_nil_r. repeat split; try done; lia.
    + simpl attempts. unfold mbind at 1, M_bind at 1, bind at 1.
      unfold attempt_try. run. subst W. cbn [net]. unfold scripted at 1.
      rewrite count_fetches_app, Hpre. unfold count_fetches at 1. simpl.
      rewrite Nat.add_0_r. unfold answers. simpl. rewrite List.nth_middle. simpl.
      exists [EJitter; EFetch jsonUrl]. rewrite <- app_assoc, Nat.min_0_r.
      by repeat split.
  - destruct fuel as [|fuel].
    + exists []. simpl. run. rewrite app_nil_r. repeat split; try done; lia.
    + simpl attempts. unfold mbind at 1, M_bind at 1, bind at 1.
      unfold attempt_try. run. subst W. cbn [net]. unfold scripted at 1.
      rewrite count_fetches_app, Hpre. unfold count_fetches at 1. simpl.
      rewrite Nat.add_0_r. unfold answers. simpl. rewrite List.nth_middle.
      cbn [http status].
      assert (Hnext : forall ms,
                 ms = cool_down code ->
                 exists ext,
                   attempts {| net := scripted (pre ++ answers (code :: codes) b) rest;
                               clock := clk |}
                     fuel jsonUrl retries (S attempt)
                     (((h ++ [EJitter]) ++ [EFetch jsonUrl]) ++ [ESleep ms])
                   = (Ok (if (length codes <? fuel)%nat then Some b else None),
                      h ++ [EJitter; EFetch jsonUrl; ESleep ms] ++ ext)
                   /\ count_fetches ext = Nat.min fuel (S (length codes))
                   /\ ((length codes < fuel)%nat -> total_sleep ext = cool_downs codes)).
      { intros ms ->.
        destruct (IH (pre ++ [http code no_json]) fuel (S attempt)
                     (((h ++ [EJitter]) ++ [EFetch jsonUrl]) ++ [ESleep (cool_down code)]))
          as (ext & Hrun & Hcount & Hsleep).
        { rewrite !count_fetches_app, Hpre, length_app. unfold count_fetches. simpl. lia. }
        exists ext. unfold answers in *. rewrite <- app_assoc in Hrun. simpl in Hrun.
        simpl. rewrite Hrun. by rewrite <- !app_assoc. }
      replace (S (length codes) <? S fuel)%nat with (length codes <? fuel)%nat
        by (destruct (Nat.ltb_spec (length codes) fuel),
                     (Nat.ltb_spec (S (length codes)) (S fuel)); done || lia).
      destruct Hcode as [-> | ->]; simpl.
      * destruct (Hnext 30000 eq_refl) as (ext & Hrun & Hcount & Hsleep).
        unfold answers in Hrun. simpl in Hrun. rewrite Hrun.
        exists ([EJitter; EFetch jsonUrl; ESleep 30000] ++ ext).
        split; [done|]. rewrite count_fetches_app, total_sleep_app. split.
        -- unfold count_fetches at 1. simpl. lia.
        -- intros Hlt. unfold total_sleep at 1. simpl. rewrite Hsleep by lia.
           unfold cool_down. simpl. lia.
      * destruct (Hnext 10000 eq_refl) as (ext & Hrun & Hcount & Hsleep).
        unfold answers in Hrun. simpl in Hrun. rewrite Hrun.
        exists ([EJitter; EFetch jsonUrl; ESleep 10000] ++ ext).
        split; [done|]. rewrite count_fetches_app, total_sleep_app. split.
        -- unfold count_fetches at 1. simpl. lia.
        -- intros Hlt. unfold total_sleep at 1. simpl. rewrite Hsleep by lia.
           unfold cool_down. simpl. lia.
Qed.

(** X5.  Against a source that answers with the statuses [codes], each a
    429 or a 403, and then with a page: [fetchRedditJson] returns the page
    when it comes within the [retries] attempts, after one more request than
    there are cool-down answers and after exactly their cool-downs (30 s for
    a 429, 10 s for a 403); otherwise it returns [undefined] after [retries]
    requests. *)
Theorem fetchRedditJson_waits_for_the_page rest clk url retries codes b h :
  Forall (fun code => code = 429 \/ code = 403) codes ->
  count_fetches h = 0%nat ->
  let W := {| net := scripted (answers codes b) rest; clock := clk |} in
  exists ext,
    fetchRedditJson W url retries h
    = (Ok (if (length codes <? retries)%nat then Some b else None), h ++ ext)
    /\ count_fetches ext = Nat.min retries (S (length codes))
    /\ ((length codes < retries)%nat -> total_sleep ext = cool_downs codes).
Proof.
  intros Hcodes Hfresh. unfold fetchRedditJson.
  exact (attempts_scripted rest clk (json_url url) retries b codes Hcodes
           [] retries 1%nat h Hfresh).
Qed.

Lemma fetchRedditJson_waits_for_the_page_witness :
  exists ext,
    fetchRedditJson blocked_then_limited "https://www.reddit.com/search.json" 3 []
    = (Ok (Some (BObject (page_of "t3" [post_at 1699999000 "Notion sync is slow"] None))),
       ext)
    /\ count_fetches ext = 3%nat
    /\ total_sleep ext = 40000.
Proof.
  pose proof (fetchRedditJson_waits_for_the_page
                (Rejected (TypeError "fetch failed")) (fun _ => NOW)
                "https://www.reddit.com/search.json" 3 [403; 429]
                (BObject (page_of "t3" [post_at 1699999000 "Notion sync is slow"] None)) []
                ltac:(constructor; [by right|constructor; [by left|constructor]])
                eq_refl) as Hpage.
  cbv zeta in Hpage. destruct Hpage as (ext & Hrun & Hcount & Hsleep).
  exists ext. split; [exact Hrun|]. split; [exact Hcount|]. apply Hsleep. simpl. lia.
Defined.

(** ** The collectors, continued *)

Lemma mapM_normalize_history W c (items : list RawItem) h :
  (mapM (fun item => normalize W item c) items h).2 = h.
Proof.
  induction items as [|item items IH]; simpl; [done|].
  unfold mbind at 1, M_bind at 1, bind at 1. rewrite normalize_run.
  destruct (normalizeRedditItem (clock W h) item c); [|done].
  unfold mbind at 1, M_bind at 1, bind at 1.
  destruct (mapM _ items h) as [[rs|err] h1]; simpl in *; by subst.
Qed.

Lemma paginate_fetches {A} (body : pager A -> M (pager A * option loop_exit)) k :
  (forall p h, exists ext, (body p h).2 = h ++ ext /\ (count_fetches ext <= k)%nat) ->
  forall fuel maxItems p h,
  exists ext,
    (paginate body fuel maxItems p h).2 = h ++ ext
    /\ (count_fetches ext <= k * fuel)%nat.
Proof.
  intros Hbody. induction fuel as [|fuel IH]; intros maxItems p h; simpl.
  - exists []. run. simpl. rewrite app_nil_r. split; [done|]. unfold count_fetches. simpl. lia.
  - destruct (negb _).
    { exists []. run. simpl. rewrite app_nil_r. split; [done|].
      unfold count_fetches. simpl. lia. }
    unfold mbind at 1, M_bind at 1, bind at 1.
    destruct (Hbody p h) as (ext1 & Hext1 & Hcount1).
    destruct (body p h) as [[[p1 [e1|]]|err] h1]; simpl in Hext1; subst h1.
    + exists ext1. run. simpl. split; [done|]. lia.
    + destruct (IH maxItems p1 (h ++ ext1)) as (ext2 & Hext2 & Hcount2).
      exists (ext1 ++ ext2). rewrite Hext2, <- app_assoc. split; [done|].
      rewrite count_fetches_app. lia.
    + exists ext1. simpl. split; [done|]. lia.
Qed.

Lemma fetchRedditJson_fetches W url h :
  exists ext,
    (fetchRedditJson W url DEFAULT_RETRIES h).2 = h ++ ext
    /\ (count_fetches ext <= 3)%nat.
Proof.
  destruct (attempts_trace W DEFAULT_RETRIES (json_url url) DEFAULT_RETRIES 1 h)
    as (ext & Hext & Hcount & _).
  by exists ext.
Qed.

Lemma mentions_page_fetches W companyName subs oneDayAgo p h :
  exists ext,
    (mentions_page W companyName subs oneDayAgo p h).2 = h ++ ext
    /\ (count_fetches ext <= 3)%nat.
Proof.
  unfold mentions_page. unfold mbind at 1, M_bind at 1, bind at 1.
  destruct (fetchRedditJson_fetches W (search_url companyName subs (cursor p)) h)
    as (ext & Hext & Hcount).
  destruct (fetchRedditJson _ _ _ h) as [[data|err] h1]; simpl in Hext; subst h1;
    [|by exists ext].
  unfold mbind at 1, M_bind at 1, bind at 1, await at 1.
  destruct (listing_data data) as [page|err]; [|by exists ext].
  destruct (page_children page) as [cs|]; [|run; by exists ext].
  destruct (negb _); run; simpl; [by exists ext|].
  exists (ext ++ [ESleep RATE_LIMIT_DELAY]). rewrite <- app_assoc. split; [done|].
  rewrite count_fetches_app. unfold count_fetches at 2. simpl. lia.
Qed.

Lemma subreddit_page_fetches W subredditName sort time oneDayAgo p h :
  exists ext,
    (subreddit_page W subredditName sort time oneDayAgo p h).2 = h ++ ext
    /\ (count_fetches ext <= 3)%nat.
Proof.
  unfold subreddit_page, try_catch at 1.
  unfold mbind at 1, M_bind at 1, bind at 1.
  destruct (fetchRedditJson_fetches W (subreddit_url subredditName sort time (cursor p)) h)
    as (ext & Hext & Hcount).
  destruct (fetchRedditJson _ _ _ h) as [[data|err] h1]; simpl in Hext; subst h1;
    [|run; by exists ext].
  unfold mbind at 1, M_bind at 1, bind at 1, await at 1.
  destruct (listing_data data) as [page|err]; [|run; by exists ext].
  destruct (page_children page) as [cs|]; [|run; by exists ext].
  unfold mbind at 1, M_bind at 1, bind at 1.
  destruct (push_recent_spec W oneDayAgo subredditName cs (allPosts p) (h ++ ext))
    as (new & thrown & -> & _).
  destruct thrown; [run; by exists ext|].
  destruct (negb _); run; simpl; [by exists ext|].
  exists (ext ++ [ESleep RATE_LIMIT_DELAY]). rewrite <- app_assoc. split; [done|].
  rewrite count_fetches_app. unfold count_fetches at 2. simpl. lia.
Qed.

Lemma fetchRedditMentions_fetches W companyName maxItems subs h :
  exists ext,
    (fetchRedditMentions W companyName maxItems subs h).2 = h ++ ext
    /\ (count_fetches ext <= 3 * ceil_div25 maxItems)%nat.
Proof.
  unfold fetchRedditMentions, oneDayAgoTimestamp, mentions_loop.
  unfold mbind at 1, M_bind at 1, bind at 1.
  unfold mbind at 1, M_bind at 1, bind at 1, Date_now at 1.
  unfold mret at 1, M_ret at 1, ret at 1. unfold try_catch.
  unfold mbind at 1, M_bind at 1, bind at 1.
  destruct (paginate_fetches _ 3 (mentions_page_fetches W companyName subs
                                   ((clock W h - 24 * 3600 * 1000) `div` 1000))
              (ceil_div25 maxItems) maxItems
              {| allPosts := []; cursor := None; fetchCount := 0 |} h)
    as (ext & Hext & Hcount).
  destruct (paginate _ _ _ _ h) as [[[p e]|err] h1]; simpl in Hext; subst h1.
  - pose proof (mapM_normalize_history W companyName
                  (slice0 maxItems (allPosts p)) (h ++ ext)) as Hmap.
    destruct (mapM _ _ (h ++ ext)) as [[rs|err] h2]; simpl in Hmap; subst h2;
      by exists ext.
  - by exists ext.
Qed.

Lemma fetchSubredditPosts_fetches W subredditName maxItems sort time h :
  exists ext,
    (fetchSubredditPosts W subredditName maxItems sort time h).2 = h ++ ext
    /\ (count_fetches ext <= 3 * ceil_div25 maxItems)%nat.
Proof.
  unfold fetchSubredditPosts, oneDayAgoTimestamp, subreddit_loop.
  unfold mbind at 1, M_bind at 1, bind at 1.
  unfold mbind at 1, M_bind at 1, bind at 1, Date_now at 1.
  unfold mret at 1, M_ret at 1, ret at 1.
  unfold mbind at 1, M_bind at 1, bind at 1.
  destruct (paginate_fetches _ 3 (subreddit_page_fetches W subredditName sort time
                                   ((clock W h - 24 * 3600 * 1000) `div` 1000))
              (ceil_div25 maxItems) maxItems
              {| allPosts := []; cursor := None; fetchCount := 0 |} h)
    as (ext & Hext & Hcount).
  destruct (paginate _ _ _ _ h) as [[[p e]|err] h1]; simpl in Hext; subst h1;
    by exists ext.
Qed.

(** X6.  Neither collector issues more than [3 * ceil(maxItems / 25)]
    requests, whether it returns or throws; with [maxItems = 0] both return
    the empty list without touching the network. *)
Theorem collectors_request_budget W maxItems h :
  (forall companyName subs,
      exists ext,
        (fetchRedditMentions W companyName maxItems subs h).2 = h ++ ext
        /\ (count_fetches ext <= 3 * ceil_div25 maxItems)%nat)
  /\ (forall subredditName sort time,
      exists ext,
        (fetchSubredditPosts W subredditName maxItems sort time h).2 = h ++ ext
        /\ (count_fetches ext <= 3 * ceil_div25 maxItems)%nat)
  /\ (forall companyName subs, fetchRedditMentions W companyName 0 subs h = (Ok [], h))
  /\ (forall subredditName sort time,
      fetchSubredditPosts W subredditName 0 sort time h = (Ok [], h)).
Proof.
  split; [|split; [|split]].
  - intros. apply fetchRedditMentions_fetches.
  - intros. apply fetchSubredditPosts_fetches.
  - reflexivity.
  - reflexivity.
Qed.

(** X7.  A failing first page request ends the two collectors differently:
    [fetchRedditMentions] throws, the error that [fetchRedditJson] threw or,
    when that one gave up with [undefined], the [TypeError] of reading
    [data.data]; [fetchSubredditPosts] catches either and returns the empty
    list. *)
Theorem first_page_failure_throws_or_is_swallowed
    W companyName subs subredditName sort time maxItems h :
  (0 < maxItems)%nat ->
  (forall e h1,
      fetchRedditJson W (search_url companyName subs None) DEFAULT_RETRIES h
        = (Throw e, h1) ->
      fetchRedditMentions W companyName maxItems subs h = (Throw e, h1))
  /\ (forall h1,
      fetchRedditJson W (search_url companyName subs None) DEFAULT_RETRIES h
        = (Ok None, h1) ->
      fetchRedditMentions W companyName maxItems subs h
      = (Throw (TypeError "Cannot read properties of undefined (reading 'data')"), h1))
  /\ (forall r h1,
      fetchRedditJson W (subreddit_url subredditName sort time None) DEFAULT_RETRIES h
        = (r, h1) ->
      (forall b, r <> Ok (Some b)) ->
      fetchSubredditPosts W subredditName maxItems sort time h = (Ok [], h1)).
Proof.
  intros Hpos.
  assert (Hfuel : exists fuel, ceil_div25 maxItems = S fuel).
  { unfold ceil_div25. destruct ((maxItems + 24) `div` 25)%nat as [|fuel] eqn:Hdiv;
      [|by exists fuel].
    apply Nat.div_small_iff in Hdiv; lia. }
  destruct Hfuel as [fuel Hfuel].
  assert (Hlen : (0 <? maxItems)%nat = true) by by apply Nat.ltb_lt.
  split; [|split].
  - intros e h1 Hfetch.
    unfold fetchRedditMentions, oneDayAgoTimestamp, mentions_loop. rewrite Hfuel.
    unfold mbind at 1, M_bind at 1, bind at 1.
    unfold mbind at 1, M_bind at 1, bind at 1, Date_now at 1.
    unfold mret at 1, M_ret at 1, ret at 1. unfold try_catch.
    unfold mbind at 1, M_bind at 1, bind at 1. simpl paginate. cbn [allPosts length].
    rewrite Hlen. cbn [negb].
    unfold mbind at 1, M_bind at 1, bind at 1. unfold mentions_page.
    unfold mbind at 1, M_bind at 1, bind at 1. cbn [cursor]. by rewrite Hfetch.
  - intros h1 Hfetch.
    unfold fetchRedditMentions, oneDayAgoTimestamp, mentions_loop. rewrite Hfuel.
    unfold mbind at 1, M_bind at 1, bind at 1.
    unfold mbind at 1, M_bind at 1, bind at 1, Date_now at 1.
    unfold mret at 1, M_ret at 1, ret at 1. unfold try_catch.
    unfold mbind at 1, M_bind at 1, bind at 1. simpl paginate. cbn [allPosts length].
    rewrite Hlen. cbn [negb].
    unfold mbind at 1, M_bind at 1, bind at 1. unfold mentions_page.
    unfold mbind at 1, M_bind at 1, bind at 1. cbn [cursor]. by rewrite Hfetch.
  - intros r h1 Hfetch Hfail.
    unfold fetchSubredditPosts, oneDayAgoTimestamp, subreddit_loop. rewrite Hfuel.
    unfold mbind at 1, M_bind at 1, bind at 1.
    unfold mbind at 1, M_bind at 1, bind at 1, Date_now at 1.
    unfold mret at 1, M_ret at 1, ret at 1.
    unfold mbind at 1, M_bind at 1, bind at 1. simpl paginate. cbn [allPosts length].
    rewrite Hlen. cbn [negb].
    unfold mbind at 1, M_bind at 1, bind at 1.
    unfold subreddit_page, try_catch at 1.
    unfold mbind at 1, M_bind at 1, bind at 1. cbn [cursor]. rewrite Hfetch.
    destruct r as [[b|]|err].
    + by destruct (Hfail b).
    + run. simpl. by rewrite take_nil.
    + run. simpl. by rewrite take_nil.
Qed.

Lemma first_page_failure_throws_or_is_swallowed_witness :
  fetchRedditMentions unreachable "notion" 10 [] []
  = (Throw (TypeError "fetch failed"),
     [EJitter; EFetch (json_url (search_url "notion" [] None)); ESleep 5000;
      EJitter; EFetch (json_url (search_url "notion" [] None)); ESleep 5000;
      EJitter; EFetch (json_url (search_url "notion" [] None))])
  /\ (fetchSubredditPosts unreachable "Notion" 10 "new" "day" []).1 = Ok [].
Proof.
  destruct (first_page_failure_throws_or_is_swallowed
              unreachable "notion" [] "Notion" "new" "day" 10 [] ltac:(lia))
    as (Hthrow & _ & Hswallow).
  split.
  - apply Hthrow. vm_compute. reflexivity.
  - destruct (fetchRedditJson unreachable (subreddit_url "Notion" "new" "day" None)
                DEFAULT_RETRIES []) as [r h1] eqn:Hfetch.
    rewrite (Hswallow r h1 eq_refl); [done|].
    intros b ->. vm_compute in Hfetch. discriminate.
Defined.

(** ** The records of the collectors *)

Lemma str_or_nonempty a d : d <> "" -> str_or a d <> "".
Proof.
  intros Hd. unfold str_or. destruct a as [s|]; [|done].
  destruct (String.eqb s "") eqn:Hs; [done|]. by apply String.eqb_neq.
Qed.

Lemma str_or_null_nonempty a : str_or_null a <> Some "".
Proof.
  unfold str_or_null, truthy_str. destruct a as [s|]; [|done].
  destruct (String.eqb s "") eqn:Hs; simpl; [done|].
  apply String.eqb_neq in Hs. congruence.
Qed.

Lemma normalizeRedditItem_collected now item c r :
  normalizeRedditItem now item c = Ok r -> collected_for c r.
Proof.
  unfold normalizeRedditItem.
  destruct (iso_of_seconds (item_created_utc item)) as [created|err]; [|done].
  intros [= <-]. unfold collected_for. simpl.
  repeat split; try done.
  - by apply str_or_nonempty.
  - apply str_or_nonempty. by rewrite append_cons.
  - apply str_or_null_nonempty.
  - apply str_or_null_nonempty.
Qed.

Lemma push_recent_as W oneDayAgo subredditName cs allPosts0 h :
  exists new thrown,
    push_recent W oneDayAgo subredditName cs allPosts0 h
      = (Ok (allPosts0 ++ new, thrown), h)
    /\ Forall (pushed_as oneDayAgo subredditName) new.
Proof.
  revert allPosts0. induction cs as [|child rest IH]; intros allPosts0; simpl.
  - exists [], None. run. by rewrite app_nil_r.
  - destruct (in_window oneDayAgo (cdata child)) eqn:Hwin; [|apply IH].
    unfold try_catch, mbind at 1, M_bind at 1, bind at 1.
    rewrite (normalize_run W).
    destruct (normalizeRedditItem (clock W h) (cdata child) subredditName)
      as [r|err] eqn:Hnorm; [|run].
    + destruct (IH (allPosts0 ++ [r])) as (new & thrown & -> & Hnew).
      exists (r :: new), thrown. split.
      * by rewrite <- app_assoc.
      * constructor; [|done]. by exists (cdata child), (clock W h).
    + exists [], (Some err). by rewrite app_nil_r.
Qed.

Lemma subreddit_page_step_as W subredditName sort time oneDayAgo p h p' e h' :
  subreddit_page W subredditName sort time oneDayAgo p h = (Ok (p', e), h') ->
  page_step (pushed_as oneDayAgo subredditName) p p' e.
Proof.
  assert (Hnil : page_step (pushed_as oneDayAgo subredditName) p p (Some BreakCaught)).
  { split; [|done]. exists []. by rewrite app_nil_r. }
  unfold subreddit_page.
  unfold try_catch at 1.
  unfold mbind at 1, M_bind at 1, bind at 1.
  destruct (fetchRedditJson _ _ _ h) as [[data|err] h1];
    [|run; by intros [= <- <- <-]].
  unfold mbind at 1, M_bind at 1, bind at 1, await at 1.
  destruct (listing_data data) as [page|err]; [|run; by intros [= <- <- <-]].
  destruct (page_children page) as [cs|].
  - unfold mbind at 1, M_bind at 1, bind at 1.
    destruct (push_recent_as W oneDayAgo subredditName cs (allPosts p) h1)
      as (new & thrown & -> & Hnew).
    destruct thrown.
    + run. intros [= <- <- <-]. split; [|done]. by exists new.
    + destruct (negb (truthy_str _)) eqn:Hcur; run; intros [= <- <- <-]; simpl;
        (split; [by exists new|]).
      * split; [done|]. by apply negb_true_iff.
      * split; [done|]. by apply negb_false_iff.
  - run. intros [= <- <- <-]. split; [|done]. exists []. by rewrite app_nil_r.
Qed.

Lemma Forall_take_of {A} (P : A -> Prop) n (l : list A) :
  Forall P l -> Forall P (slice0 n l).
Proof. apply Forall_take. Qed.

Lemma fetchRedditMentions_collected W companyName maxItems subs h recs h' :
  fetchRedditMentions W companyName maxItems subs h = (Ok recs, h') ->
  (length recs <= maxItems)%nat /\ Forall (collected_for companyName) recs.
Proof.
  intros Hrun.
  apply fetchRedditMentions_spec in Hrun as (p & e & _ & _ & Hnorm & _). split.
  - rewrite <- (Forall2_length _ _ _ Hnorm). unfold slice0. rewrite length_take. lia.
  - induction Hnorm as [|item r items recs Hr _ IH]; constructor;
      eauto using normalizeRedditItem_collected.
Qed.

Lemma fetchSubredditPosts_collected W subredditName maxItems sort time h :
  exists recs h',
    fetchSubredditPosts W subredditName maxItems sort time h = (Ok recs, h')
    /\ (length recs <= maxItems)%nat
    /\ Forall (collected_for subredditName) recs.
Proof.
  destruct (fetchSubredditPosts_spec W subredditName maxItems sort time h)
    as (p & e & h' & Hloop & Hrun & _).
  exists (slice0 maxItems (allPosts p)), h'. split; [done|]. split.
  - unfold slice0. rewrite length_take. lia.
  - apply Forall_take_of.
    pose proof (paginate_spec (pushed_as (window_start W h) subredditName) _ _ _
                  (subreddit_page_step_as W subredditName sort time (window_start W h))
                  _ _ _ _ _ Hloop) as ([new [Hnew HQ]] & _).
    rewrite Hnew. simpl. eapply Forall_impl; [exact HQ|].
    intros r (post & now & _ & Hr). eauto using normalizeRedditItem_collected.
Qed.

(** X8.  Every record that a collector returns is marked as coming from
    Reddit, carries no analysis and no comments, and has a non-empty author
    and URL and a title and flair that are [null] or non-empty.  Its
    [companyName] is the company searched for in a record of
    [fetchRedditMentions] and the name of the subreddit in a record of
    [fetchSubredditPosts]. *)
Theorem collected_records_are_well_formed W maxItems h :
  (forall companyName subs, exists res h',
      fetchRedditMentions W companyName maxItems subs h = (res, h')
      /\ match res with
         | Ok recs => Forall (collected_for companyName) recs
         | Throw _ => True
         end)
  /\ (forall subredditName sort time, exists recs h',
      fetchSubredditPosts W subredditName maxItems sort time h = (Ok recs, h')
      /\ Forall (collected_for subredditName) recs).
Proof.
  split.
  - intros companyName subs.
    destruct (fetchRedditMentions W companyName maxItems subs h) as [[recs|err] h']
      eqn:Hrun; [|by exists (Throw err), h'].
    exists (Ok recs), h'. split; [done|].
    by apply fetchRedditMentions_collected in Hrun as [_ Hall].
  - intros subredditName sort time.
    destruct (fetchSubredditPosts_collected W subredditName maxItems sort time h)
      as (recs & h' & Hrun & _ & Hall).
    by exists recs, h'.
Qed.

(** ** Comment threads, continued *)

Lemma comment_of_valid child :
  valid_date (item_created_utc (cdata child)) -> exists c, comment_of child = Ok c.
Proof.
  unfold comment_of, iso_of_seconds, toISOString. intros Hdate.
  destruct (truthy_num (item_created_utc (cdata child))) eqn:Htruthy; [|by eexists].
  destruct Hdate as [|Hle%Z.leb_le]; [congruence|]. rewrite Hle. by eexists.
Qed.

Lemma comment_of_invalid child :
  ~ valid_date (item_created_utc (cdata child)) -> exists e, comment_of child = Throw e.
Proof.
  unfold comment_of, iso_of_seconds, toISOString. intros Hdate.
  destruct (truthy_num (item_created_utc (cdata child))) eqn:Htruthy.
  - destruct (Z.abs (default 0 (item_created_utc (cdata child)) * 1000)
              <=? MAX_TIME_VALUE) eqn:Hrange; [|by eexists].
    destruct Hdate. right. by apply Z.leb_le.
  - destruct Hdate. by left.
Qed.

Lemma map_result_total {A B} (f : A -> result B) l :
  Forall (fun x => exists y, f x = Ok y) l -> exists ys, map_result f l = Ok ys.
Proof.
  induction 1 as [|x l [y Hy] _ [ys Hys]]; simpl; [by eexists|].
  rewrite Hy, Hys. by eexists.
Qed.

Lemma map_result_throws {A B} (f : A -> result B) l :
  Exists (fun x => exists e, f x = Throw e) l -> exists e, map_result f l = Throw e.
Proof.
  induction 1 as [x l [e He]|x l _ [e He]]; simpl.
  - rewrite He. by eexists.
  - destruct (f x); [|by eexists]. rewrite He. by eexists.
Qed.

(** X9.  When the comment listing arrives, [fetchPostComments] looks at the
    first ten children of kind [t1] only.  If each of them has a timestamp
    that a [Date] can hold, it returns one comment for each, in the order of
    the thread; if one of them has not, the whole listing is lost and the
    result is the empty list.  Children after the tenth comment never
    matter. *)
Theorem fetchPostComments_all_or_nothing W permalink h data h1 listing :
  fetchRedditJson W (comments_url permalink) DEFAULT_RETRIES h = (Ok data, h1) ->
  comments_listing data = Ok (Some listing) ->
  (Forall (fun child => valid_date (item_created_utc (cdata child)))
          (slice0 10 (List.filter is_comment listing)) ->
   exists cs,
     fetchPostComments W permalink h = (Ok cs, h1)
     /\ length cs = Nat.min 10 (length (List.filter is_comment listing))
     /\ Forall2 (fun child c => comment_of child = Ok c)
          (slice0 10 (List.filter is_comment listing)) cs)
  /\ (Exists (fun child => ~ valid_date (item_created_utc (cdata child)))
             (slice0 10 (List.filter is_comment listing)) ->
      fetchPostComments W permalink h = (Ok [], h1)).
Proof.
  intros Hfetch Hlisting.
  assert (Hrun : fetchPostComments W permalink h
                 = match map_result comment_of
                           (slice0 10 (List.filter is_comment listing)) with
                   | Ok cs => (Ok cs, h1)
                   | Throw _ => (Ok [], h1)
                   end).
  { unfold fetchPostComments. fold (comments_url permalink).
    unfold try_catch, mbind at 1, M_bind at 1, bind at 1. rewrite Hfetch.
    unfold mbind at 1, M_bind at 1, bind at 1, await at 1. rewrite Hlisting.
    unfold await. by destruct (map_result _ _). }
  rewrite Hrun. split.
  - intros Hvalid.
    destruct (map_result_total comment_of
                (slice0 10 (List.filter is_comment listing))) as [cs Hcs].
    { eapply Forall_impl; [exact Hvalid|]. apply comment_of_valid. }
    rewrite Hcs. exists cs. split; [done|].
    apply map_result_Forall2 in Hcs. split; [|done].
    rewrite <- (Forall2_length _ _ _ Hcs). unfold slice0. by rewrite length_take.
  - intros Hinvalid.
    destruct (map_result_throws comment_of
                (slice0 10 (List.filter is_comment listing))) as [e He].
    { eapply Exists_impl; [exact Hinvalid|]. apply comment_of_invalid. }
    by rewrite He.
Qed.

Lemma fetchPostComments_all_or_nothing_witness :
  (exists cs h1,
      fetchPostComments long_thread "/r/Notion/comments/1" [] = (Ok cs, h1)
      /\ length cs = 10%nat)
  /\ (fetchPostComments broken_thread "/r/Notion/comments/1" []).1 = Ok [].
Proof.
  split.
  - destruct (fetchRedditJson long_thread (comments_url "/r/Notion/comments/1")
                DEFAULT_RETRIES []) as [r h1] eqn:Hfetch.
    assert (Hr : r = Ok (Some (BArray
              [page_of "t3" [post_at 1699999000 "Notion sync is slow"] None;
               {| ldata :=
                    Some {| children :=
                              Some (map (fun i => comment_at (1699999000 + Z.of_nat i))
                                        (seq 1 11)
                                    ++ [{| kind := "more"; cdata := post_at 0 "" |}]);
                            after := None |} |}]))).
    { vm_compute in Hfetch. by injection Hfetch as <- _. }
    subst r.
    destruct (fetchPostComments_all_or_nothing long_thread "/r/Notion/comments/1" []
                _ h1 _ Hfetch eq_refl) as [Hall _].
    destruct Hall as (cs & Hrun & Hlen & _).
    + match goal with
      | |- Forall _ ?l => let l' := eval vm_compute in l in change l with l'
      end.
      repeat (apply List.Forall_cons; [right; vm_compute; discriminate|]).
      apply List.Forall_nil.
    + exists cs, h1. split; [exact Hrun|]. exact Hlen.
  - destruct (fetchRedditJson broken_thread (comments_url "/r/Notion/comments/1")
                DEFAULT_RETRIES []) as [r h1] eqn:Hfetch.
    assert (Hr : r = Ok (Some (BArray
              [page_of "t3" [post_at 1699999000 "Notion sync is slow"] None;
               page_of "t1" [post_at 1699999100 "same here";
                             far_future_post;
                             post_at 1699999300 "fixed in the beta"] None]))).
    { vm_compute in Hfetch. by injection Hfetch as <- _. }
    subst r.
    destruct (fetchPostComments_all_or_nothing broken_thread "/r/Notion/comments/1" []
                _ h1 _ Hfetch eq_refl) as [_ Hnone].
    rewrite Hnone; [done|].
    apply Exists_cons_tl, Exists_cons_hd.
    intros [Hfalsy|Hrange]; [done|]. vm_compute in Hrange. by destruct Hrange.
Defined.

(** ** The relevance filter, continued *)

Lemma append_assoc' (s t u : string) : (s +:+ t) +:+ u = s +:+ (t +:+ u).
Proof. induction s as [|a s IH]; [done|]. rewrite !append_cons. by rewrite IH. Qed.

Lemma toLowerCase_app s t : toLowerCase (s +:+ t) = toLowerCase s +:+ toLowerCase t.
Proof.
  induction s as [|a s IH]; [done|]. rewrite append_cons. simpl.
  by rewrite append_cons, IH.
Qed.

Lemma toLowerCase_ascii_idem c :
  toLowerCase_ascii (toLowerCase_ascii c) = toLowerCase_ascii c.
Proof. by destruct c as [[] [] [] [] [] [] [] []]. Qed.

Lemma toLowerCase_idem s : toLowerCase (toLowerCase s) = toLowerCase s.
Proof.
  induction s as [|a s IH]; [done|]. simpl. by rewrite toLowerCase_ascii_idem, IH.
Qed.

Lemma includes_in_context pre s suf t :
  includes s t = true -> includes (pre +:+ s +:+ suf) t = true.
Proof.
  intros (p & q & ->)%includes_substring. apply includes_substring.
  exists (pre +:+ p), (q +:+ suf). by rewrite !append_assoc'.
Qed.

Lemma post_content_parts post :
  post_content post
  = toLowerCase (str_or (title post) "") +:+ " " +:+ toLowerCase (body post).
Proof.
  unfold post_content. rewrite !toLowerCase_app. do 2 f_equal.
  unfold str_or. destruct (String.eqb (body post) "") eqn:Hb; [|done].
  apply String.eqb_eq in Hb. by rewrite Hb.
Qed.

(** X10.  [isRelevantPost] is a disjunction over the search terms: no term
    gives [false], and the terms of two lists are tried as one list.  The
    comparison ignores the case of the terms; a term that is the empty
    string matches every post; and a term found in the body alone, or in
    the title alone, is enough. *)
Theorem isRelevantPost_terms post :
  isRelevantPost post [] = false
  /\ (forall ts1 ts2,
        isRelevantPost post (ts1 ++ ts2)
        = isRelevantPost post ts1 || isRelevantPost post ts2)
  /\ (forall terms, isRelevantPost post (map toLowerCase terms)
                    = isRelevantPost post terms)
  /\ (forall terms, In "" terms -> isRelevantPost post terms = true)
  /\ (forall terms term,
        In term terms ->
        includes (toLowerCase (body post)) (toLowerCase term) = true
        \/ (exists t, title post = Some t
                      /\ includes (toLowerCase t) (toLowerCase term) = true) ->
        isRelevantPost post terms = true).
Proof.
  split; [done|]. split; [|split; [|split]].
  - intros ts1 ts2. unfold isRelevantPost. apply existsb_app.
  - intros terms. unfold isRelevantPost. induction terms as [|t terms IH]; [done|].
    simpl. by rewrite toLowerCase_idem, IH.
  - intros terms Hin. unfold isRelevantPost. apply existsb_exists.
    exists "". split; [done|]. apply includes_substring.
    by exists "", (post_content post).
  - intros terms term Hin Hfound. unfold isRelevantPost. apply existsb_exists.
    exists term. split; [done|]. rewrite post_content_parts.
    destruct Hfound as [Hbody|(t & Ht & Htitle)].
    + replace (toLowerCase (str_or (title post) "") +:+ " " +:+ toLowerCase (body post))
        with ((toLowerCase (str_or (title post) "") +:+ " ")
              +:+ toLowerCase (body post) +:+ "")
        by (by rewrite append_nil_r, append_assoc').
      by apply includes_in_context.
    + rewrite Ht. change ("" +:+ ?x) with x.
      assert (Hstr : str_or (Some t) "" = t).
      { unfold str_or. destruct (String.eqb t "") eqn:Hb; [|done].
        by apply String.eqb_eq in Hb. }
      rewrite Hstr. by apply (includes_in_context "").
Qed.

(** ** The smart scrape, continued *)

Lemma scraped_collected W opts subs h scrapes h' :
  scraped W opts subs h scrapes h' ->
  Forall (fun s => (length s.2 <= maxItemsPerSubreddit opts)%nat
                   /\ Forall (collected_for (name s.1)) s.2) scrapes.
Proof.
  induction 1 as [|sub rest h posts h1 more h2 Hfetch _ IH]; constructor; [|done].
  destruct (fetchSubredditPosts_collected W (name sub) (maxItemsPerSubreddit opts)
              "new" "day" h) as (recs & h3 & Hrun & Hlen & Hall).
  rewrite Hrun in Hfetch. by injection Hfetch as <- _.
Qed.

Lemma scraped_trace W opts subs h scrapes h' :
  scraped W opts subs h scrapes h' ->
  exists ext,
    h' = h ++ ext
    /\ (count_fetches ext
        <= length subs * (3 * ceil_div25 (maxItemsPerSubreddit opts)))%nat.
Proof.
  induction 1 as [h|sub rest h posts h1 more h2 Hfetch _ (ext2 & -> & Hcount2)].
  - exists []. rewrite app_nil_r. split; [done|]. unfold count_fetches. simpl. lia.
  - destruct (fetchSubredditPosts_fetches W (name sub) (maxItemsPerSubreddit opts)
                "new" "day" h) as (ext1 & Hext1 & Hcount1).
    rewrite Hfetch in Hext1. simpl in Hext1. subst h1.
    exists (ext1 ++ [ESleep RATE_LIMIT_DELAY] ++ ext2). split.
    + by rewrite <- !app_assoc.
    + rewrite !count_fetches_app. unfold count_fetches at 2. simpl. lia.
Qed.

Lemma recorded_names_inv opts d scrapes (results : gmap string SubredditResult) nm :
  is_Some (foldl (record_scrape opts d) results scrapes !! nm) ->
  is_Some (results !! nm) \/ In nm (map (fun s => name s.1) scrapes).
Proof.
  revert results. induction scrapes as [|[sub posts] more IH]; intros results; simpl.
  - by left.
  - intros [Hhere|Hlater]%IH; [|by right; right].
    unfold record_scrape in Hhere. simpl in Hhere.
    destruct (decide (name sub = nm)) as [<-|Hne]; [by right; left|].
    rewrite lookup_insert_ne in Hhere by done. by left.
Qed.

Lemma recorded_totals opts d n scrapes :
  Forall (fun s : Sub * list FeedbackRecord => (length s.2 <= n)%nat) scrapes ->
  forall results : gmap string SubredditResult,
    (forall nm e, results !! nm = Some e -> (total e <= n)%nat) ->
    forall nm e, foldl (record_scrape opts d) results scrapes !! nm = Some e ->
                 (total e <= n)%nat.
Proof.
  induction 1 as [|[sub posts] more Hlen _ IH]; intros results Hres; simpl; [done|].
  apply IH. intros nm e. unfold record_scrape. simpl.
  destruct (decide (name sub = nm)) as [<-|Hne].
  - rewrite lookup_insert_eq. by intros [= <-].
  - rewrite lookup_insert_ne by done. apply Hres.
Qed.

Lemma relevantPosts_sublist opts d sub posts :
  (length (relevantPosts opts d sub posts) <= length posts)%nat
  /\ forall post, In post (relevantPosts opts d sub posts) ->
       In post posts
       /\ (filters opts sub = true -> mentions_term post (searchTerms d)).
Proof.
  unfold relevantPosts. destruct (filters opts sub); split.
  - apply List.filter_length_le.
  - intros post [Hin Hrel]%List.filter_In. split; [done|].
    intros _. by apply isRelevantPost_mentions.
  - done.
  - by intros post Hin.
Qed.

Lemma kept_tagged_bound companyName opts d n scrapes :
  Forall (fun s : Sub * list FeedbackRecord => (length s.2 <= n)%nat) scrapes ->
  (length (flat_map (kept_tagged companyName opts d) scrapes) <= length scrapes * n)%nat.
Proof.
  induction 1 as [|[sub posts] more Hlen _ IH]; simpl; [done|].
  rewrite length_app. unfold kept_tagged at 1. rewrite length_map. simpl in *.
  pose proof (proj1 (relevantPosts_sublist opts d sub posts)). lia.
Qed.

Lemma kept_tagged_mentions companyName opts d scrapes :
  Forall (fun s => Forall (collected_for (name s.1)) s.2) scrapes ->
  Forall (fun s => In s.1 (subreddits d)) scrapes ->
  Forall (tagged_mention companyName opts d)
         (flat_map (kept_tagged companyName opts d) scrapes).
Proof.
  induction 1 as [|[sub posts] more Hposts _ IH]; intros Hsubs; simpl; [constructor|].
  apply Forall_cons in Hsubs as [Hsub Hsubs]. apply Forall_app. split; [|by apply IH].
  unfold kept_tagged. simpl in *. apply Forall_map, Forall_forall.
  intros post Hin%list_elem_of_In.
  apply relevantPosts_sublist in Hin as [Hin Hterm].
  apply list_elem_of_In in Hin.
  pose proof (proj1 (Forall_forall _ _) Hposts post Hin) as (Hsource & _).
  exists sub. by repeat split.
Qed.

(** X11.  With [useQuickDiscovery] set, or without an [OPENAI_API_KEY],
    [smartScrape] never calls the LLM-assisted discovery: its outcome does
    not depend on it.  It scrapes what the heuristic discovery returns; when
    that call throws, the [catch] makes the same call once more, and when
    that one throws too, [smartScrape] throws its error without having
    scraped anything. *)
Theorem smartScrape_discovers_without_llm
    W discoverSubreddits quickDiscoverSubreddits OPENAI_API_KEY companyName opts h :
  useQuickDiscovery opts = true \/ truthy_str OPENAI_API_KEY = false ->
  (forall otherDiscovery,
      smartScrape W otherDiscovery quickDiscoverSubreddits OPENAI_API_KEY
        companyName opts h
      = smartScrape W discoverSubreddits quickDiscoverSubreddits OPENAI_API_KEY
          companyName opts h)
  /\ (forall d h1,
      quickDiscoverSubreddits companyName h = (Ok d, h1) ->
      smartScrape W discoverSubreddits quickDiscoverSubreddits OPENAI_API_KEY
        companyName opts h
      = scrape_discovered W companyName opts d h1)
  /\ (forall e h1,
      quickDiscoverSubreddits companyName h = (Throw e, h1) ->
      (forall d h2,
          quickDiscoverSubreddits companyName h1 = (Ok d, h2) ->
          smartScrape W discoverSubreddits quickDiscoverSubreddits OPENAI_API_KEY
            companyName opts h
          = scrape_discovered W companyName opts d h2)
      /\ (forall e2 h2,
          quickDiscoverSubreddits companyName h1 = (Throw e2, h2) ->
          smartScrape W discoverSubreddits quickDiscoverSubreddits OPENAI_API_KEY
            companyName opts h
          = (Throw e2, h2))).
Proof.
  intros Hquick.
  assert (Hsel : useQuickDiscovery opts || negb (truthy_str OPENAI_API_KEY) = true).
  { destruct Hquick as [-> | ->]; [done|]. by rewrite orb_true_r. }
  assert (Hdiscover : forall llm,
            discover llm quickDiscoverSubreddits OPENAI_API_KEY companyName opts h
            = match quickDiscoverSubreddits companyName h with
              | (Ok d, h1) => (Ok d, h1)
              | (Throw _, h1) => quickDiscoverSubreddits companyName h1
              end).
  { intros llm. unfold discover, try_catch. rewrite Hsel.
    by destruct (quickDiscoverSubreddits companyName h) as [[d|e] h1]. }
  assert (Hsmart : forall llm,
            smartScrape W llm quickDiscoverSubreddits OPENAI_API_KEY companyName opts h
            = match (match quickDiscoverSubreddits companyName h with
                     | (Ok d, h1) => (Ok d, h1)
                     | (Throw _, h1) => quickDiscoverSubreddits companyName h1
                     end) with
              | (Ok d, h1) => scrape_discovered W companyName opts d h1
              | (Throw e, h1) => (Throw e, h1)
              end).
  { intros llm. unfold smartScrape. unfold mbind at 1, M_bind at 1, bind at 1.
    by rewrite Hdiscover. }
  split; [|split].
  - intros other. by rewrite !Hsmart.
  - intros d h1 Hd. by rewrite Hsmart, Hd.
  - intros e h1 He. split.
    + intros d h2 Hd. by rewrite Hsmart, He, Hd.
    + intros e2 h2 He2. by rewrite Hsmart, He, He2.
Qed.

Lemma smartScrape_discovers_without_llm_witness :
  smartScrape two_pages llm_down quick_notion None "Notion" default_options []
  = scrape_discovered two_pages "Notion" default_options notion_discovery [].
Proof.
  exact (proj1 (proj2 (smartScrape_discovers_without_llm two_pages llm_down
                         quick_notion None "Notion" default_options []
                         (or_intror eq_refl)))
           notion_discovery [] eq_refl).
Defined.

(** X12.  When discovery finds no subreddit, [smartScrape] searches
    Reddit-wide for the company name, with a budget of 50 items whatever
    [maxItemsPerSubreddit] says, in at most six requests.  An error of that
    search is not caught: [smartScrape] throws it.  Otherwise the result
    reports the company name as only search term, no subreddit entry, and
    the records found, untagged. *)
Theorem smartScrape_without_subreddits
    W discoverSubreddits quickDiscoverSubreddits OPENAI_API_KEY
    companyName opts h d h1 :
  discover discoverSubreddits quickDiscoverSubreddits OPENAI_API_KEY
    companyName opts h = (Ok d, h1) ->
  subreddits d = [] ->
  exists ext,
    (smartScrape W discoverSubreddits quickDiscoverSubreddits OPENAI_API_KEY
       companyName opts h).2 = h1 ++ ext
    /\ (count_fetches ext <= 6)%nat
    /\ (forall e h2,
          fetchRedditMentions W companyName 50 [] h1 = (Throw e, h2) ->
          smartScrape W discoverSubreddits quickDiscoverSubreddits OPENAI_API_KEY
            companyName opts h = (Throw e, h2))
    /\ (forall found h2,
          fetchRedditMentions W companyName 50 [] h1 = (Ok found, h2) ->
          smartScrape W discoverSubreddits quickDiscoverSubreddits OPENAI_API_KEY
            companyName opts h
          = (Ok {| discovery := {| subreddits := []; searchTerms := [companyName] |};
                   mentions := map untagged found;
                   subredditResults := ∅ |}, h2)
          /\ (length found <= 50)%nat
          /\ Forall (untagged_mention companyName) (map untagged found)).
Proof.
  intros Hd Hnone.
  assert (Hsmart :
            smartScrape W discoverSubreddits quickDiscoverSubreddits OPENAI_API_KEY
              companyName opts h
            = match fetchRedditMentions W companyName 50 [] h1 with
              | (Ok found, h2) =>
                  (Ok {| discovery := {| subreddits := []; searchTerms := [companyName] |};
                         mentions := map untagged found;
                         subredditResults := ∅ |}, h2)
              | (Throw e, h2) => (Throw e, h2)
              end).
  { unfold smartScrape. unfold mbind at 1, M_bind at 1, bind at 1. rewrite Hd.
    unfold scrape_discovered. rewrite Hnone. cbn [length Nat.eqb].
    unfold mbind at 1, M_bind at 1, bind at 1.
    by destruct (fetchRedditMentions W companyName 50 [] h1) as [[found|e] h2]. }
  destruct (fetchRedditMentions_fetches W companyName 50 [] h1)
    as (ext & Hext & Hcount).
  exists ext. split; [|split; [|split]].
  - rewrite Hsmart.
    by destruct (fetchRedditMentions W companyName 50 [] h1) as [[found|e] h2].
  - exact Hcount.
  - intros e h2 He. by rewrite Hsmart, He.
  - intros found h2 Hfound. split; [by rewrite Hsmart, Hfound|].
    apply fetchRedditMentions_collected in Hfound as [Hlen Hall].
    split; [done|]. apply Forall_map. eapply Forall_impl; [exact Hall|].
    by intros r Hr.
Qed.

Lemma smartScrape_without_subreddits_witness :
  exists found h2,
    smartScrape two_pages llm_down no_subreddits None "Notion" default_options []
    = (Ok {| discovery := {| subreddits := []; searchTerms := ["Notion"] |};
             mentions := map untagged found;
             subredditResults := ∅ |}, h2)
    /\ length found = 2%nat.
Proof.
  destruct (smartScrape_without_subreddits two_pages llm_down no_subreddits None
              "Notion" default_options [] {| subreddits := []; searchTerms := [] |} []
              eq_refl eq_refl) as (ext & _ & _ & _ & Hfound).
  destruct (fetchRedditMentions two_pages "Notion" 50 [] []) as [[found|err] h2]
    eqn:Hrun; [|by vm_compute in Hrun].
  exists found, h2. split; [exact (proj1 (Hfound found h2 eq_refl))|].
  vm_compute in Hrun. by injection Hrun as <- _.
Defined.

(** X13.  Once discovery has found subreddits, [smartScrape] cannot fail:
    it returns the discovery as it was found, after at most
    [3 * ceil(maxItemsPerSubreddit / 25)] requests per subreddit.
    [subredditResults] has an entry for exactly the discovered names, and no
    entry counts more than [maxItemsPerSubreddit] posts. *)
Theorem smartScrape_with_subreddits
    W discoverSubreddits quickDiscoverSubreddits OPENAI_API_KEY
    companyName opts h d h1 :
  discover discoverSubreddits quickDiscoverSubreddits OPENAI_API_KEY
    companyName opts h = (Ok d, h1) ->
  subreddits d <> [] ->
  exists r ext,
    smartScrape W discoverSubreddits quickDiscoverSubreddits OPENAI_API_KEY
      companyName opts h = (Ok r, h1 ++ ext)
    /\ discovery r = d
    /\ (count_fetches ext
        <= length (subreddits d) * (3 * ceil_div25 (maxItemsPerSubreddit opts)))%nat
    /\ (forall nm, is_Some (subredditResults r !! nm) <-> In nm (map name (subreddits d)))
    /\ (forall nm e, subredditResults r !! nm = Some e ->
                     (total e <= maxItemsPerSubreddit opts)%nat).
Proof.
  intros Hd Hsome.
  destruct (scrape_subreddits_run W companyName opts d (subreddits d) ([], ∅) h1)
    as (scrapes & h2 & Hscraped & Hrun).
  destruct (scraped_trace _ _ _ _ _ _ Hscraped) as (ext & -> & Hcount).
  pose proof (scraped_collected _ _ _ _ _ _ Hscraped) as Hcollected.
  pose proof (scraped_subs _ _ _ _ _ _ Hscraped) as Hsubs.
  eexists _, ext. split; [|split; [|split; [|split]]].
  - unfold smartScrape. unfold mbind at 1, M_bind at 1, bind at 1. rewrite Hd.
    unfold scrape_discovered.
    destruct (subreddits d) as [|sub rest] eqn:Hlist; [done|]. cbn [length Nat.eqb].
    unfold mbind at 1, M_bind at 1, bind at 1. rewrite Hrun. reflexivity.
  - reflexivity.
  - exact Hcount.
  - intros nm. cbn [subredditResults snd].
    assert (Hnames : map (fun s : Sub * list FeedbackRecord => name s.1) scrapes
                     = map name (subreddits d)).
    { by rewrite <- Hsubs, List.map_map. }
    rewrite <- Hnames. split.
    + intros [Hempty|Hin]%recorded_names_inv; [|done].
      rewrite lookup_empty in Hempty. by destruct Hempty.
    + intros Hin. apply recorded_names. by right.
  - cbn [subredditResults snd].
    apply (recorded_totals opts d (maxItemsPerSubreddit opts) scrapes).
    + eapply Forall_impl; [exact Hcollected|]. by intros s [Hlen _].
    + intros nm e. by rewrite lookup_empty.
Qed.

Lemma smartScrape_with_subreddits_witness :
  exists r ext,
    smartScrape two_pages llm_down quick_notion None "Notion" default_options []
    = (Ok r, ext)
    /\ discovery r = notion_discovery
    /\ (count_fetches ext <= 12)%nat
    /\ is_Some (subredditResults r !! "Notion").
Proof.
  destruct (smartScrape_with_subreddits two_pages llm_down quick_notion None "Notion"
              default_options [] notion_discovery [] eq_refl ltac:(discriminate))
    as (r & ext & Hrun & Hdisc & Hcount & Hkeys & _).
  exists r, ext. split; [exact Hrun|]. split; [exact Hdisc|].
  split; [exact Hcount|]. apply Hkeys. by left.
Defined.

(** X14.  Every mention that [smartScrape] returns from discovered
    subreddits is tagged: it is marked as discovered, carries the relevance
    of one of the discovered subreddits and the company name in the place of
    the subreddit name, and came from Reddit; when its subreddit is filtered
    it mentions a search term.  There are at most [maxItemsPerSubreddit]
    mentions per discovered subreddit. *)
Theorem smartScrape_mentions_are_tagged
    W discoverSubreddits quickDiscoverSubreddits OPENAI_API_KEY
    companyName opts h r h' :
  smartScrape W discoverSubreddits quickDiscoverSubreddits OPENAI_API_KEY
    companyName opts h = (Ok r, h') ->
  subreddits (discovery r) <> [] ->
  Forall (tagged_mention companyName opts (discovery r)) (mentions r)
  /\ (length (mentions r)
      <= length (subreddits (discovery r)) * maxItemsPerSubreddit opts)%nat.
Proof.
  intros Hrun Hsome. apply smartScrape_inv in Hrun as (d & h1 & _ & Hrun).
  apply scrape_discovered_inv in Hrun
    as [(_ & found & _ & ->)|(Hsubs & scrapes & Hscraped & ->)]; [done|].
  cbn [discovery mentions] in *.
  pose proof (scraped_collected _ _ _ _ _ _ Hscraped) as Hcollected.
  pose proof (scraped_subs _ _ _ _ _ _ Hscraped) as Hfst. split.
  - apply kept_tagged_mentions.
    + eapply Forall_impl; [exact Hcollected|]. by intros s [_ Hall].
    + apply Forall_forall. intros s Hin. rewrite <- Hfst.
      apply List.in_map. by apply list_elem_of_In.
  - rewrite <- Hfst, length_map. apply kept_tagged_bound.
    eapply Forall_impl; [exact Hcollected|]. by intros s [Hlen _].
Qed.

Lemma smartScrape_mentions_are_tagged_witness :
  exists r h',
    smartScrape ten_posts llm_down (fun _ => mret secondary_discovery) None
      "Notion" default_options [] = (Ok r, h')
    /\ Forall (tagged_mention "Notion" default_options (discovery r)) (mentions r)
    /\ length (mentions r) = 3%nat.
Proof.
  destruct (smartScrape ten_posts llm_down (fun _ => mret secondary_discovery) None
              "Notion" default_options []) as [[r|err] h'] eqn:Hrun.
  2:{ apply (f_equal (fun x => is_ok x.1)) in Hrun. by vm_compute in Hrun. }
  exists r, h'. split; [reflexivity|].
  assert (Hval : match (Ok r, h').1 with
                 | Ok r => Some (length (mentions r), subreddits (discovery r))
                 | Throw _ => None
                 end = Some (3%nat, [secondary_sub])).
  { rewrite <- Hrun. vm_compute. reflexivity. }
  cbn [fst] in Hval. injection Hval as Hthree Hsubs.
  destruct (smartScrape_mentions_are_tagged _ _ _ _ _ _ _ _ _ Hrun) as [Htagged _].
  { by rewrite Hsubs. }
  by split.
Defined.

(** ** Posts with their comments *)

Lemma comments_url_is_json permalink :
  json_url (comments_url permalink) = comments_url permalink.
Proof.
  apply json_url_has_suffix, includes_substring.
  exists ("https://www.reddit.com" +:+ permalink), "".
  unfold comments_url. by rewrite append_nil_r, append_assoc'.
Qed.

Lemma fetchPostComments_run W permalink h :
  exists cs ext,
    fetchPostComments W permalink h = (Ok cs, h ++ ext)
    /\ (length cs <= 10)%nat
    /\ (count_fetches ext <= 3)%nat
    /\ Forall (fun u => u = comments_url permalink) (requested_urls ext).
Proof.
  destruct (attempts_trace W DEFAULT_RETRIES (json_url (comments_url permalink))
              DEFAULT_RETRIES 1 h) as (ext & Hext & Hcount & _ & _ & Hurls).
  rewrite comments_url_is_json in Hurls.
  unfold fetchPostComments. fold (comments_url permalink).
  unfold try_catch, mbind at 1, M_bind at 1, bind at 1.
  change (attempts W DEFAULT_RETRIES (json_url (comments_url permalink))
            DEFAULT_RETRIES 1 h)
    with (fetchRedditJson W (comments_url permalink) DEFAULT_RETRIES h) in Hext.
  destruct (fetchRedditJson W (comments_url permalink) DEFAULT_RETRIES h)
    as [[data|err] h1]; simpl in Hext; subst h1.
  2:{ exists [], ext. run. repeat split; simpl; try done; lia. }
  unfold mbind at 1, M_bind at 1, bind at 1, await at 1.
  destruct (comments_listing data) as [[listing|]|err].
  - unfold await.
    destruct (map_result comment_of (slice0 10 (List.filter is_comment listing)))
      as [cs|err] eqn:Hmap.
    + exists cs, ext. apply map_result_Forall2 in Hmap. repeat split; try done.
      rewrite <- (Forall2_length _ _ _ Hmap). unfold slice0. rewrite length_take. lia.
    + exists [], ext. run. repeat split; simpl; try done; lia.
  - exists [], ext. run. repeat split; simpl; try done; lia.
  - exists [], ext. run. repeat split; simpl; try done; lia.
Qed.

Lemma attach_comments_spec W fuel : forall i posts h,
  exists posts' ext,
    attach_comments W fuel i posts h = (Ok posts', h ++ ext)
    /\ length posts' = length posts
    /\ (count_fetches ext <= 3 * fuel)%nat
    /\ forall j post, posts !! j = Some post ->
         if (i <=? j)%nat && (j <? i + fuel)%nat && on_reddit post
         then exists cs hj hj',
                fetchPostComments W (permalink_of post) hj = (Ok cs, hj')
                /\ posts' !! j = Some (set_comments cs post) /\ (length cs <= 10)%nat
         else posts' !! j = Some post.
Proof.
  induction fuel as [|fuel IH]; intros i posts h.
  - exists posts, []. simpl. rewrite app_nil_r. repeat split; try done.
    intros j post Hj.
    replace ((i <=? j)%nat && (j <? i + 0)%nat) with false; [done|].
    destruct (Nat.leb_spec i j), (Nat.ltb_spec j (i + 0)); simpl; try done; lia.
  - simpl attach_comments. destruct (posts !! i) as [post_i|] eqn:Hi.
    2:{ exists posts, []. run. rewrite app_nil_r. repeat split; try done.
        - unfold count_fetches. simpl. lia.
        - intros j post Hj. apply lookup_ge_None in Hi.
          pose proof (lookup_lt_Some _ _ _ Hj) as Hlt.
          replace (i <=? j)%nat with false; [done|].
          symmetry. apply Nat.leb_gt. lia. }
    destruct (on_reddit post_i) eqn:Hreddit.
    + unfold mbind at 1, M_bind at 1, bind at 1.
      destruct (fetchPostComments_run W (permalink_of post_i) h)
        as (found & ext1 & Hfound & Hlen & Hcount1 & _).
      rewrite Hfound.
      unfold mbind at 1, M_bind at 1, bind at 1, sleep at 1, emit at 1.
      destruct (IH (S i) (<[i := set_comments found post_i]> posts)
                   ((h ++ ext1) ++ [ESleep RATE_LIMIT_DELAY]))
        as (posts' & ext2 & Hrun & Hlen' & Hcount2 & Hposts).
      exists posts', (ext1 ++ [ESleep RATE_LIMIT_DELAY] ++ ext2).
      rewrite Hrun. split; [by rewrite <- !app_assoc|].
      split; [by rewrite Hlen', length_insert|]. split.
      * rewrite !count_fetches_app. unfold count_fetches at 2. simpl. lia.
      * intros j post Hj. destruct (decide (j = i)) as [->|Hne].
        -- rewrite Hi in Hj. injection Hj as <-.
           specialize (Hposts i (set_comments found post_i)).
           rewrite list_lookup_insert_eq in Hposts by by eapply lookup_lt_Some.
           specialize (Hposts eq_refl).
           replace (S i <=? i)%nat with false in Hposts
             by (symmetry; apply Nat.leb_gt; lia).
           cbn [andb] in Hposts.
           replace (i <=? i)%nat with true by (symmetry; apply Nat.leb_le; lia).
           replace (i <? i + S fuel)%nat with true by (symmetry; apply Nat.ltb_lt; lia).
           rewrite Hreddit. cbn [andb]. by exists found, h, (h ++ ext1).
        -- specialize (Hposts j post).
           rewrite list_lookup_insert_ne in Hposts by done.
           specialize (Hposts Hj).
           replace ((i <=? j)%nat && (j <? i + S fuel)%nat)
             with ((S i <=? j)%nat && (j <? S i + fuel)%nat); [done|].
           destruct (Nat.leb_spec (S i) j), (Nat.leb_spec i j),
             (Nat.ltb_spec j (S i + fuel)), (Nat.ltb_spec j (i + S fuel));
             simpl; try done; lia.
    + destruct (IH (S i) posts h) as (posts' & ext & Hrun & Hlen' & Hcount & Hposts).
      exists posts', ext. rewrite Hrun. split; [done|]. split; [done|].
      split; [lia|].
      intros j post Hj. specialize (Hposts j post Hj).
      destruct (decide (j = i)) as [->|Hne].
      * rewrite Hi in Hj. injection Hj as <-. rewrite Hreddit, andb_false_r.
        replace (S i <=? i)%nat with false in Hposts
          by (symmetry; apply Nat.leb_gt; lia).
        done.
      * replace ((i <=? j)%nat && (j <? i + S fuel)%nat)
          with ((S i <=? j)%nat && (j <? S i + fuel)%nat); [done|].
        destruct (Nat.leb_spec (S i) j), (Nat.leb_spec i j),
          (Nat.ltb_spec j (S i + fuel)), (Nat.ltb_spec j (i + S fuel));
          simpl; try done; lia.
Qed.

(** X15.  [fetchAllRedditMentions] throws what the search for posts throws.
    Once the posts are found it cannot fail: it returns as many posts as
    were found (at most [maxItems]), an empty [comments] array and their
    number as [total].  Without [includeComments] the posts are returned as
    found and no further request is made; with it, at most fifteen requests
    follow, each of the first five posts whose URL is on Reddit receives at
    most ten comments, and every other post stays as it was. *)
Theorem fetchAllRedditMentions_attaches_comments W companyName maxItems includeComments h :
  match fetchRedditMentions W companyName maxItems [] h with
  | (Throw e, h1) =>
      fetchAllRedditMentions W companyName maxItems includeComments h = (Throw e, h1)
  | (Ok posts, h1) =>
      exists posts' ext,
        fetchAllRedditMentions W companyName maxItems includeComments h
          = (Ok {| am_posts := posts'; am_comments := []; am_total := length posts |},
             h1 ++ ext)
        /\ length posts' = length posts
        /\ (length posts <= maxItems)%nat
        /\ (count_fetches ext <= 15)%nat
        /\ (includeComments = false -> posts' = posts /\ ext = [])
        /\ (forall j post, posts !! j = Some post ->
              comments_attached W includeComments j post (posts' !! j))
  end.
Proof.
  destruct (fetchRedditMentions W companyName maxItems [] h) as [[posts|e] h1] eqn:Hfound.
  2:{ unfold fetchAllRedditMentions. unfold mbind at 1, M_bind at 1, bind at 1.
      by rewrite Hfound. }
  pose proof (fetchRedditMentions_collected _ _ _ _ _ _ _ Hfound) as [Hmax _].
  unfold fetchAllRedditMentions. unfold mbind at 1, M_bind at 1, bind at 1.
  rewrite Hfound. unfold mbind at 1, M_bind at 1, bind at 1.
  destruct (includeComments && (0 <? length posts)%nat) eqn:Hinc.
  - apply andb_true_iff in Hinc as [-> Hsome].
    destruct (attach_comments_spec W (Nat.min 5 (length posts)) 0 posts h1)
      as (posts' & ext & -> & Hlen & Hcount & Hposts).
    exists posts', ext. run. rewrite Hlen. repeat split; try done; [lia|].
    intros j post Hj. specialize (Hposts j post Hj). unfold comments_attached.
    cbn [andb]. pose proof (lookup_lt_Some _ _ _ Hj) as Hlt.
    replace (j <? 5)%nat with ((0 <=? j)%nat && (j <? 0 + Nat.min 5 (length posts))%nat);
      [done|].
    destruct (Nat.ltb_spec j 5), (Nat.ltb_spec j (0 + Nat.min 5 (length posts)));
      simpl; try done; lia.
  - exists posts, []. run. rewrite app_nil_r. repeat split; try done.
    + unfold count_fetches. simpl. lia.
    + intros j post Hj. unfold comments_attached.
      apply andb_false_iff in Hinc as [->|Hnone]; [done|].
      apply Nat.ltb_ge in Hnone. apply lookup_lt_Some in Hj. lia.
Qed.

Lemma replace_unfold s pattern replacement :
  replace s pattern replacement
  = if String.prefix pattern s
    then replacement +:+ string_drop (String.length pattern) s
    else match s with
         | EmptyString => EmptyString
         | String c s' => String c (replace s' pattern replacement)
         end.
Proof. by destruct s. Qed.

Lemma string_drop_app pattern s :
  string_drop (String.length pattern) (pattern +:+ s) = s.
Proof. induction pattern as [|a pattern IH]; [done|]. by rewrite append_cons. Qed.

Lemma replace_prefix pattern s : replace (pattern +:+ s) pattern "" = s.
Proof.
  rewrite replace_unfold.
  replace (String.prefix pattern (pattern +:+ s)) with true.
  - by rewrite string_drop_app.
  - symmetry. apply prefix_append. by exists s.
Qed.

Lemma includes_unfold s t :
  includes s t
  = String.prefix t s || match s with
                         | EmptyString => false
                         | String _ s' => includes s' t
                         end.
Proof. by destruct s. Qed.

Lemma replace_absent s pattern replacement :
  includes s pattern = false -> replace s pattern replacement = s.
Proof.
  induction s as [|a s IH]; rewrite includes_unfold, replace_unfold;
    intros [-> Hrest]%orb_false_iff; [done|].
  by rewrite IH.
Qed.

Lemma includes_longer s t u : includes s t = false -> includes s (t +:+ u) = false.
Proof.
  intros Hnot. destruct (includes s (t +:+ u)) eqn:Hin; [|done].
  apply includes_substring in Hin as (pre & suf & ->).
  assert (Hyes : includes (pre +:+ (t +:+ u) +:+ suf) t = true); [|congruence].
  apply includes_substring. exists pre, (u +:+ suf). by rewrite append_assoc'.
Qed.

(** X16.  The permalink of a post comes back out of the URL that the
    normaliser gave it: for a permalink [p] without [https://], whether the
    item had no [url] and permalink [p], or a [url] on [reddit.com] or
    [www.reddit.com] with path [p], the record counts as a Reddit post,
    [fetchAllRedditMentions] recovers [p] from its [sourceUrl], and the
    comments are requested from [https://www.reddit.com<p>.json], with one
    [.json] suffix. *)
Theorem permalink_round_trip now item c r p :
  normalizeRedditItem now item c = Ok r ->
  includes p "https://" = false ->
  (truthy_str (item_url item) = false /\ item_permalink item = Some p)
  \/ item_url item = Some ("https://reddit.com" +:+ p)
  \/ item_url item = Some ("https://www.reddit.com" +:+ p) ->
  on_reddit r = true
  /\ permalink_of r = p
  /\ json_url (comments_url (permalink_of r)) = "https://www.reddit.com" +:+ p +:+ ".json".
Proof.
  intros Hnorm Hp Hurl.
  assert (Hsource : sourceUrl r = "https://reddit.com" +:+ p
                    \/ sourceUrl r = "https://www.reddit.com" +:+ p).
  { unfold normalizeRedditItem in Hnorm.
    destruct (iso_of_seconds (item_created_utc item)) as [created|err]; [|done].
    injection Hnorm as <-. cbn [sourceUrl].
    destruct Hurl as [[Hnone Hperm]|[Hurl|Hurl]].
    - left. rewrite Hperm. unfold str_or, truthy_str in *.
      destruct (item_url item) as [s|]; [|done].
      apply negb_false_iff in Hnone. by rewrite Hnone.
    - left. rewrite Hurl. unfold str_or. by rewrite append_cons.
    - right. rewrite Hurl. unfold str_or. by rewrite append_cons. }
  assert (Hperm : permalink_of r = p).
  { unfold permalink_of. destruct Hsource as [-> | ->].
    - rewrite replace_prefix. apply replace_absent.
      by apply (includes_longer p "https://" "www.reddit.com").
    - rewrite (replace_absent _ "https://reddit.com").
      + apply replace_prefix.
      + rewrite !append_cons. change ("" +:+ p) with p.
        simpl. by apply (includes_longer p "https://" "reddit.com"). }
  split; [|split].
  - unfold on_reddit. apply andb_true_iff. split.
    + apply negb_true_iff, String.eqb_neq. destruct Hsource as [-> | ->];
        by rewrite append_cons.
    + apply includes_substring. destruct Hsource as [-> | ->].
      * by exists "https://", p.
      * by exists "https://www.", p.
  - exact Hperm.
  - rewrite Hperm. apply comments_url_is_json.
Qed.

Lemma permalink_round_trip_witness :
  exists r,
    normalizeRedditItem NOW (post_at 1699999000 "Notion sync is slow") "Notion" = Ok r
    /\ on_reddit r = true /\ permalink_of r = "/r/a/p".
Proof.
  destruct (normalizeRedditItem NOW (post_at 1699999000 "Notion sync is slow") "Notion")
    as [r|err] eqn:Hnorm; [|by vm_compute in Hnorm].
  exists r. split; [reflexivity|].
  destruct (permalink_round_trip NOW (post_at 1699999000 "Notion sync is slow")
              "Notion" r "/r/a/p" Hnorm eq_refl (or_introl (conj eq_refl eq_refl)))
    as (Hreddit & Hperm & _).
  by split.
Defined.

(** ** One page, in full *)






(** ** A timestamp out of range, in a page *)





